(** * The Android runtime host shim (monodroid.c)

    A shallow embedding of
    [src/tasks/AndroidAppBuilder/Templates/monodroid.c]: the JNI entry
    points [setEnv], [initRuntime], [execEntryPoint] and
    [freeNativeResources], the assembly preload hook and the AOT data
    hook, over the three process-wide variables [g_bundle_path],
    [g_domain] and [g_assembly].

    Conventions of the embedding.
    - A C string is the [string] of the characters before its terminator;
      a pointer that may be [NULL] is an [option].
    - [int] values are [Z]; lengths are [nat].  String lengths and the
      argument count are taken to fit an [int], as the source takes them.
    - The Mono engine and libc's file and memory calls are outside the
      file: a record of [Externals] answers every call whose result the
      source inspects.  The calls to the engine, to the file system
      ([chdir], [stat], [open], [mmap], [close], [munmap]), to [setenv]
      and to [free] are appended to the [calls] of the [World], oldest
      first; allocation ([malloc], [strdup], [vasprintf]), the string
      routines and [printf] are not, and logging goes to the [logcat].
      An allocation whose result the source does not test is taken to
      succeed.
    - A [jstring] is the string of its UTF-8 characters and a
      [jobjectArray] the list of its elements; the JNI's acquire and
      release of them leave no trace.
    - [assert] is live (no [NDEBUG]): a failed assertion, like a
      dereferenced [NULL], ends the run in [Aborted].
    - The handlers the shim only installs and the engine calls later on
      its own are not run by the model of [initRuntime]; the
      unhandled-exception sink is modelled on its own, over the engine's
      reflection calls taken as queries. *)

From Stdlib Require Import ZArith String Ascii List Bool Lia DecimalString.
From stdpp Require Import base option gmap strings.

Local Open Scope Z_scope.
Local Open Scope nat_scope.

(** ** C strings and the libc routines the source calls *)

Module CString.

Definition strlen (s : string) : nat := String.length s.

(** The first [n] characters of [s]: what a bounded copy keeps. *)
Fixpoint truncate (n : nat) (s : string) : string :=
  match n, s with
  | S n', String c s' => String c (truncate n' s')
  | _, _ => EmptyString
  end.

(** The C expression [s + n], for [n <= strlen s]. *)
Fixpoint offset (n : nat) (s : string) : string :=
  match n, s with
  | S n', String _ s' => offset n' s'
  | _, _ => s
  end.

(** [strlcpy (dst, src, size)]: the contents of [dst] afterwards. *)
Definition strlcpy (src : string) (size : nat) : string :=
  truncate (size - 1) src.

(** [strlcat (dst, src, size)]: the contents of [dst] afterwards; a
    [dst] that already fills the buffer is left alone. *)
Definition strlcat (dst src : string) (size : nat) : string :=
  if size <=? strlen dst then dst
  else dst +:+ truncate (size - 1 - strlen dst) src.

(** [snprintf (buf, size, fmt, ...)] where [formatted] is the whole
    expansion of the format: the contents of [buf] and the returned
    count, which is the length of the whole expansion. *)
Definition snprintf (size : nat) (formatted : string) : string * Z :=
  (truncate (size - 1) formatted, Z.of_nat (strlen formatted)).

(** [strncpy (dst, src, n)]: the characters of [dst] afterwards, up to
    a terminator or the end of the [n] bytes written. *)
Definition strncpy (src : string) (n : nat) : string :=
  truncate n src.

(** [!strcmp (a, b)] *)
Definition strcmp_eq (a b : string) : bool := String.eqb a b.

(** [s[i] == c] for [i <= strlen s]; the terminator matches nothing
    the source compares with. *)
Definition char_is (s : string) (i : nat) (c : ascii) : bool :=
  match String.get i s with
  | Some c' => Ascii.eqb c' c
  | None => false
  end.

(** [n] copies of one character, for long inputs. *)
Fixpoint replicate_char (n : nat) (c : ascii) : string :=
  match n with
  | O => EmptyString
  | S n' => String c (replicate_char n' c)
  end.

(** [s] ends with [suffix]. *)
Definition ends_with (suffix s : string) : Prop :=
  exists p, s = p +:+ suffix.

Definition ends_withb (suffix s : string) : bool :=
  (strlen suffix <=? strlen s)
  && String.eqb (offset (strlen s - strlen suffix) s) suffix.

End CString.
Import CString.

(** ** Assembly resolution: the candidate path of [mono_droid_load_assembly] *)

(** [int has_extension = len > 3 && name [len - 4] == '.' &&
      (!strcmp ("exe", name + (len - 3)) || !strcmp ("dll", name + (len - 3)));] *)
Definition has_extension (name : string) : bool :=
  let len := strlen name in
  (3 <? len)
  && char_is name (len - 4) "."
  && (strcmp_eq "exe" (offset (len - 3) name)
      || strcmp_eq "dll" (offset (len - 3) name)).

(** [char filename [1024]] after the [strlcpy] and the conditional
    [strlcat]. *)
Definition assembly_filename (name : string) : string :=
  let filename := strlcpy name 1024 in
  if has_extension name then filename
  else strlcat filename ".dll" 1024.

(** The expansion of the format chosen by
    [if (culture && strcmp (culture, ""))]. *)
Definition format_assembly_path
    (bundle_path : string) (culture : option string) (filename : string) : string :=
  match culture with
  | Some c =>
      if strcmp_eq c "" then bundle_path +:+ "/" +:+ filename
      else bundle_path +:+ "/" +:+ c +:+ "/" +:+ filename
  | None => bundle_path +:+ "/" +:+ filename
  end.

(** [char path [1024]] and [res] after
    [snprintf (path, sizeof (path) - 1, ...)]. *)
Definition assembly_path
    (bundle_path name : string) (culture : option string) : string * Z :=
  snprintf 1023 (format_assembly_path bundle_path culture (assembly_filename name)).

(** The file name as the specification words it: ".dll" is appended
    only when the name ends in neither ".dll" nor ".exe". *)
Definition spec_filename (name : string) : string :=
  if ends_withb ".dll" name || ends_withb ".exe" name then name
  else name +:+ ".dll".

(** The candidate path as the specification words it: the file name
    under the bundle path or under its culture directory. *)
Definition spec_candidate_path
    (bundle_path : string) (culture : option string) (filename : string) : string :=
  match culture with
  | None | Some EmptyString => bundle_path +:+ "/" +:+ filename
  | Some c => bundle_path +:+ "/" +:+ c +:+ "/" +:+ filename
  end.

(** ** Handles, build configuration, external calls *)

(** Non-null engine handles; [NULL] is the [None] of an [option]. *)
Inductive MonoDomain : Type := domain_at (addr : positive).
Inductive MonoAssembly : Type := assembly_at (addr : positive).

(** What [mono_assembly_name_get_name] and
    [mono_assembly_name_get_culture] read from a [MonoAssemblyName]. *)
Record MonoAssemblyName : Type := {
  aname_name : string;
  aname_culture : option string
}.

Inductive MonoAotMode : Type :=
| MONO_AOT_MODE_NORMAL
| MONO_AOT_MODE_FULL
| MONO_AOT_MODE_INTERP_ONLY.

Inductive architecture : Type := arm | aarch64 | i386 | x86_64.

Definition ANDROID_RUNTIME_IDENTIFIER (a : architecture) : string :=
  match a with
  | arm => "android-arm"
  | aarch64 => "android-arm64"
  | i386 => "android-x86"
  | x86_64 => "android-x64"
  end.

Definition RUNTIMECONFIG_BIN_FILE : string := "runtimeconfig.bin".

(** The preprocessor symbols the file is compiled under. *)
Record BuildConfig : Type := {
  target : architecture;
  DIAGNOSTIC_PORTS : option string;
  FORCE_INTERPRETER : bool;
  FORCE_AOT : bool;
  STATIC_AOT : bool;
  FULL_AOT : bool
}.

(** A call that leaves the file, with the arguments it is given. *)
Inductive call : Type :=
| Chdir (path : option string)
| Stat (path : string)
| Open_rdonly (path : string)
| Mmap (size : Z) (fd : Z)
| Close (fd : Z)
| Munmap (handle : positive) (size : Z)
| Free_string (s : string)
| Free_argv (argv : list (option string))
| Setenv (name value : string) (overwrite : bool)
| Monovm_runtimeconfig_initialize (path : string)
| Monovm_initialize (keys values : list string)
| Mono_debug_init
| Mono_install_assembly_preload_hook
| Mono_install_load_aot_data_hook
| Mono_install_unhandled_exception_hook
| Mono_trace_set_log_handler
| Mono_set_signal_chaining (chain : bool)
| Mono_set_crash_chaining (chain : bool)
| Mono_jit_parse_options (options : list string)
| Mono_jit_set_aot_mode (mode : MonoAotMode)
| Register_aot_modules
| Mono_jit_init_version (name version : string)
| Mono_assembly_open (path : string)
| Mono_assembly_close (assembly : MonoAssembly)
| Mono_domain_set (domain : MonoDomain) (force : bool)
| Mono_domain_finalize (domain : MonoDomain) (timeout : Z)
| Mono_jit_exec (domain : MonoDomain) (assembly : MonoAssembly)
    (argc : Z) (argv : list (option string))
| Mono_jit_cleanup (domain : MonoDomain).

(** The engine's "run assembly as executable" entry point. *)
Definition is_jit_exec (c : call) : bool :=
  match c with
  | Mono_jit_exec _ _ _ _ => true
  | _ => false
  end.

(** The answers of what lies outside the file. *)
Record Externals : Type := {
  (** [stat (path, &buffer) == 0] *)
  stat_ok : string -> bool;
  (** [open (path, O_RDONLY)]: the descriptor, negative on failure *)
  open_rdonly : string -> Z;
  (** [mmap (NULL, size, PROT_READ, MAP_FILE | MAP_PRIVATE, fd, 0)];
      [None] is [MAP_FAILED] *)
  mmap_private : Z -> Z -> option positive;
  (** whether [malloc] of that many bytes returns non-null *)
  malloc_ok : nat -> bool;
  monovm_initialize : list string -> list string -> Z;
  mono_jit_init_version : string -> string -> option MonoDomain;
  mono_assembly_open : string -> option MonoAssembly;
  (** [mono_assembly_name_get_name (mono_assembly_get_name (assembly))] *)
  mono_assembly_get_name : MonoAssembly -> string;
  mono_jit_exec :
    MonoDomain -> MonoAssembly -> Z -> list (option string) -> Z
}.

(** The same externals with another answer of [open]. *)
Definition with_open_rdonly (X : Externals) (f : string -> Z) : Externals :=
  {| stat_ok := stat_ok X;
     open_rdonly := f;
     mmap_private := mmap_private X;
     malloc_ok := malloc_ok X;
     monovm_initialize := monovm_initialize X;
     mono_jit_init_version := mono_jit_init_version X;
     mono_assembly_open := mono_assembly_open X;
     mono_assembly_get_name := mono_assembly_get_name X;
     mono_jit_exec := mono_jit_exec X |}.

(** ** The world: globals, environment, calls made, log *)

Inductive log_priority : Type := ANDROID_LOG_DEBUG | ANDROID_LOG_ERROR.

(** An argument of a log format: a string (or [NULL]), an [int], or
    [strerror (errno)]. *)
Inductive log_arg : Type :=
| Str (s : option string)
| Int (z : Z)
| Strerror_errno.

Record log_record : Type := {
  log_prio : log_priority;
  log_fmt : string;
  log_args : list log_arg
}.

Record World : Type := mkWorld {
  g_bundle_path : option string;
  g_domain : option MonoDomain;
  g_assembly : option MonoAssembly;
  environ : gmap string string;
  calls : list call;
  logcat : list log_record
}.

(** [static ... = NULL] thrice, in a process that has called nothing. *)
Definition initial_world (env : gmap string string) : World :=
  mkWorld None None None env [] [].

Inductive outcome (A : Type) : Type :=
| Returned (a : A) (w : World)
| Aborted (w : World).
Arguments Returned {A} a w.
Arguments Aborted {A} w.

Definition world_of {A : Type} (o : outcome A) : World :=
  match o with
  | Returned _ w => w
  | Aborted w => w
  end.

(** The value a run returned, if it returned. *)
Definition returned {A : Type} (o : outcome A) : option A :=
  match o with
  | Returned a _ => Some a
  | Aborted _ => None
  end.

Definition M (A : Type) : Type := World -> outcome A.

Definition ret {A : Type} (a : A) : M A := fun w => Returned a w.

Definition bind {A B : Type} (m : M A) (k : A -> M B) : M B :=
  fun w =>
    match m w with
    | Returned a w' => k a w'
    | Aborted w' => Aborted w'
    end.

Declare Scope shim_scope.
Delimit Scope shim_scope with shim.
Notation "'let*' x ':=' m 'in' k" := (bind m (fun x => k))
  (at level 10, x name, m at level 100, k at level 200) : shim_scope.
Notation "m ;; k" := (bind m (fun _ => k))
  (at level 100, k at level 200, right associativity) : shim_scope.
Local Open Scope shim_scope.

Definition abort {A : Type} : M A := fun w => Aborted w.

(** [assert (b)] *)
Definition c_assert (b : bool) : M unit :=
  fun w => if b then Returned tt w else Aborted w.

Definition load {A : Type} (field : World -> A) : M A :=
  fun w => Returned (field w) w.

Definition store_g_bundle_path (p : option string) : M unit :=
  fun w => Returned tt
    (mkWorld p (g_domain w) (g_assembly w) (environ w) (calls w) (logcat w)).

Definition store_g_domain (d : option MonoDomain) : M unit :=
  fun w => Returned tt
    (mkWorld (g_bundle_path w) d (g_assembly w) (environ w) (calls w) (logcat w)).

Definition store_g_assembly (a : option MonoAssembly) : M unit :=
  fun w => Returned tt
    (mkWorld (g_bundle_path w) (g_domain w) a (environ w) (calls w) (logcat w)).

Definition do_call (c : call) : M unit :=
  fun w => Returned tt
    (mkWorld (g_bundle_path w) (g_domain w) (g_assembly w) (environ w)
       (calls w ++ [c]) (logcat w)).

Definition android_log_print
    (prio : log_priority) (fmt : string) (args : list log_arg) : M unit :=
  fun w => Returned tt
    (mkWorld (g_bundle_path w) (g_domain w) (g_assembly w) (environ w)
       (calls w) (logcat w ++ [Build_log_record prio fmt args])).

Definition LOG_INFO : string -> list log_arg -> M unit :=
  android_log_print ANDROID_LOG_DEBUG.
Definition LOG_ERROR : string -> list log_arg -> M unit :=
  android_log_print ANDROID_LOG_ERROR.

(** [strchr (s, c) != NULL], for a [c] other than the terminator. *)
Fixpoint has_char (c : ascii) (s : string) : bool :=
  match s with
  | EmptyString => false
  | String c' s' => Ascii.eqb c' c || has_char c s'
  end.

(** The names libc's [setenv] takes: not empty and without [=].  On
    any other name it fails with [EINVAL] and leaves the environment as
    it was. *)
Definition valid_env_name (name : string) : bool :=
  negb (String.eqb name EmptyString) && negb (has_char "=" name).

(** [setenv (key, val, overwrite)]: the call, and what it does to the
    process environment; the source does not look at its result. *)
Definition setenv (key val : string) (overwrite : bool) : M unit :=
  fun w =>
    let env :=
      if valid_env_name key then
        match environ w !! key with
        | Some _ => if overwrite then <[key := val]> (environ w) else environ w
        | None => <[key := val]> (environ w)
        end
      else environ w in
    Returned tt
      (mkWorld (g_bundle_path w) (g_domain w) (g_assembly w) env
         (calls w ++ [Setenv key val overwrite]) (logcat w)).

(** [for (int i = 0; i < count; ++i) body] over a local state. *)
Fixpoint for_loop {S : Type} (i count : nat) (body : nat -> S -> S) (s : S) : S :=
  match count with
  | O => s
  | Datatypes.S count' => for_loop (Datatypes.S i) count' body (body i s)
  end.

(** A [long] or [int] narrowed to a 32-bit [int]. *)
Definition to_int (z : Z) : Z :=
  ((z + 2147483648) mod 4294967296 - 2147483648)%Z.

(** ["%d"] *)
Definition format_d (z : Z) : string :=
  NilZero.string_of_int (Z.to_int z).

(** ** The shim *)

(** [const char* appctx_keys[3]] *)
Definition appctx_keys : list string :=
  ["RUNTIME_IDENTIFIER"; "APP_CONTEXT_BASE_DIRECTORY";
   "System.TimeZoneInfo.LocalDateTimeOffset"].

(** [const char* appctx_values[3]]; the third is the [strdup] of
    [char local_date_time_offset_buffer[32]] after its [snprintf]. *)
Definition appctx_values
    (cfg : BuildConfig) (bundle_path : string) (local_date_time_offset : Z)
    : list string :=
  let local_date_time_offset_buffer :=
    fst (snprintf 32 (format_d local_date_time_offset)) in
  [ANDROID_RUNTIME_IDENTIFIER (target cfg); bundle_path;
   local_date_time_offset_buffer].

Section Shim.

Variable X : Externals.
Variable cfg : BuildConfig.

Definition mono_droid_load_assembly
    (name : string) (culture : option string) : M (option MonoAssembly) :=
  let* bundle_path_opt := load g_bundle_path in
  match bundle_path_opt with
  | None => abort                                  (* assert (g_bundle_path) *)
  | Some bundle_path =>
      LOG_INFO "assembly_preload_hook: %s %s %s\n"
        [Str (Some name); Str culture; Str (Some bundle_path)] ;;
      let '(path, res) := assembly_path bundle_path name culture in
      c_assert (0 <? res)%Z ;;
      do_call (Stat path) ;;
      if stat_ok X path then
        do_call (Mono_assembly_open path) ;;
        match mono_assembly_open X path with
        | Some assembly => ret (Some assembly)
        | None => abort                            (* assert (assembly) *)
        end
      else ret None
  end.

Definition mono_droid_assembly_preload_hook
    (aname : MonoAssemblyName) : M (option MonoAssembly) :=
  let name := aname_name aname in
  let culture := aname_culture aname in
  mono_droid_load_assembly name culture.

(** The buffer [path] and [res] of [load_aot_data]. *)
Definition aot_data_path (bundle_path aname : string) : string * Z :=
  snprintf 1023 (bundle_path +:+ "/" +:+ aname +:+ ".aotdata").

(** Returns the pair of the result and of [*out_handle]. *)
Definition load_aot_data
    (assembly : MonoAssembly) (size : Z) : M (option positive * option positive) :=
  let* bundle_path_opt := load g_bundle_path in
  match bundle_path_opt with
  | None => abort                                  (* assert (g_bundle_path) *)
  | Some bundle_path =>
      let out_handle : option positive := None in
      let aname := mono_assembly_get_name X assembly in
      LOG_INFO "Looking for aot data for assembly '%s'." [Str (Some aname)] ;;
      let '(path, res) := aot_data_path bundle_path aname in
      c_assert (0 <? res)%Z ;;
      do_call (Open_rdonly path) ;;
      let fd := open_rdonly X path in
      if (fd <? 0)%Z then
        LOG_INFO "Could not load the aot data for %s from %s: %s\n"
          [Str (Some aname); Str (Some path); Strerror_errno] ;;
        ret (None, out_handle)
      else
        do_call (Mmap size fd) ;;
        match mmap_private X size fd with
        | None =>
            LOG_INFO "Could not map the aot file for %s: %s\n"
              [Str (Some aname); Strerror_errno] ;;
            do_call (Close fd) ;;
            ret (None, out_handle)
        | Some ptr =>
            do_call (Close fd) ;;
            LOG_INFO "Loaded aot data for %s.\n" [Str (Some aname)] ;;
            let out_handle := Some ptr in
            ret (Some ptr, out_handle)
        end
  end.

Definition free_aot_data (size : Z) (handle : positive) : M unit :=
  do_call (Munmap handle size).

Definition mono_droid_runtime_init
    (executable : string) (local_date_time_offset : Z) : M Z :=
  LOG_INFO "mono_droid_runtime_init (Mono) called with executable: %s"
    [Str (Some executable)] ;;
  match DIAGNOSTIC_PORTS cfg with
  | Some ports => setenv "DOTNET_DiagnosticPorts" ports true
  | None => ret tt
  end ;;
  let wait_for_debugger := false in
  let* bundle_path_opt := load g_bundle_path in
  do_call (Chdir bundle_path_opt) ;;
  match bundle_path_opt with
  | None => abort                                  (* strlen (NULL) *)
  | Some bundle_path =>
      let appctx_keys := appctx_keys in
      let appctx_values := appctx_values cfg bundle_path local_date_time_offset in
      let file_name := RUNTIMECONFIG_BIN_FILE in
      let str_len := strlen bundle_path + strlen file_name + 1 in
      let '(file_path, num_char) :=
        snprintf (str_len + 1) (bundle_path +:+ "/" +:+ file_name) in
      LOG_INFO "file_path: %s\n" [Str (Some file_path)] ;;
      c_assert ((0 <? num_char)%Z && (num_char =? Z.of_nat str_len)%Z) ;;
      do_call (Stat file_path) ;;
      (if stat_ok X file_path
       then do_call (Monovm_runtimeconfig_initialize file_path)
       else do_call (Free_string file_path)) ;;
      LOG_INFO "Calling monovm_initialize" [] ;;
      do_call (Monovm_initialize appctx_keys appctx_values) ;;
      let rv := monovm_initialize X appctx_keys appctx_values in
      LOG_INFO "monovm_initialize returned %d" [Int rv] ;;
      do_call Mono_debug_init ;;
      do_call Mono_install_assembly_preload_hook ;;
      do_call Mono_install_load_aot_data_hook ;;
      do_call Mono_install_unhandled_exception_hook ;;
      do_call Mono_trace_set_log_handler ;;
      do_call (Mono_set_signal_chaining true) ;;
      do_call (Mono_set_crash_chaining true) ;;
      (if wait_for_debugger
       then do_call (Mono_jit_parse_options
         ["--debugger-agent=transport=dt_socket,server=y,address=0.0.0.0:55556"])
       else ret tt) ;;
      (if FORCE_INTERPRETER cfg then
         LOG_INFO "Interp Enabled" [] ;;
         do_call (Mono_jit_set_aot_mode MONO_AOT_MODE_INTERP_ONLY)
       else if FORCE_AOT cfg then
         LOG_INFO "AOT Enabled" [] ;;
         (if STATIC_AOT cfg then do_call Register_aot_modules else ret tt) ;;
         (if FULL_AOT cfg
          then do_call (Mono_jit_set_aot_mode MONO_AOT_MODE_FULL)
          else do_call (Mono_jit_set_aot_mode MONO_AOT_MODE_NORMAL))
       else ret tt) ;;
      do_call (Mono_jit_init_version "dotnet.android" "mobile") ;;
      store_g_domain (mono_jit_init_version X "dotnet.android" "mobile") ;;
      let* domain := load g_domain in
      match domain with
      | None =>
          LOG_ERROR "mono_jit_init_version failed" [] ;;
          ret (-1)%Z
      | Some _ =>
          let* assembly := mono_droid_load_assembly executable None in
          store_g_assembly assembly ;;
          match assembly with
          | None =>
              LOG_ERROR "mono_droid_load_assembly failed" [] ;;
              ret (-1)%Z
          | Some _ => ret rv
          end
      end
  end.

Definition free_resources : M unit :=
  let* bundle_path := load g_bundle_path in
  match bundle_path with
  | Some p =>
      do_call (Free_string p) ;;
      store_g_bundle_path None
  | None => ret tt
  end ;;
  let* assembly := load g_assembly in
  match assembly with
  | Some a =>
      do_call (Mono_assembly_close a) ;;
      store_g_assembly None
  | None => ret tt
  end ;;
  let* domain := load g_domain in
  match domain with
  | Some d =>
      do_call (Mono_domain_set d false) ;;
      do_call (Mono_domain_finalize d 0) ;;
      store_g_domain None
  | None => ret tt
  end.

Definition mono_droid_execute_assembly
    (domain : MonoDomain) (assembly : MonoAssembly)
    (managed_argc : Z) (managed_argv : list (option string)) : M Z :=
  LOG_INFO "Calling mono_jit_exec" [] ;;
  do_call (Mono_jit_exec domain assembly managed_argc managed_argv) ;;
  let rv := mono_jit_exec X domain assembly managed_argc managed_argv in
  LOG_INFO "Exit code: %d." [Int rv] ;;
  do_call (Mono_jit_cleanup domain) ;;
  ret rv.

(** The buffer [buff] afterwards. *)
Definition strncpy_str (str : string) (nbuff : nat) : string :=
  truncate (nbuff - 1) (strncpy str nbuff).

Definition Java_net_dot_MonoRunner_setEnv (j_key j_value : string) : M unit :=
  LOG_INFO "Java_net_dot_MonoRunner_setEnv:" [] ;;
  let* domain := load g_domain in
  c_assert (bool_decide (domain = None)) ;;
  let key := j_key in
  let val := j_value in
  LOG_INFO "Setting env var: %s=%s" [Str (Some key); Str (Some val)] ;;
  setenv key val true.

Definition Java_net_dot_MonoRunner_initRuntime
    (j_files_dir j_entryPointLibName : string) (current_local_time : Z) : M Z :=
  LOG_INFO "Java_net_dot_MonoRunner_initRuntime (Mono):" [] ;;
  let file_dir := strncpy_str j_files_dir 2048 in
  let entryPointLibName := strncpy_str j_entryPointLibName 2048 in
  let file_dir_len := strlen file_dir in
  if malloc_ok X (file_dir_len + 1) then
    let bundle_path_tmp := strncpy file_dir (file_dir_len + 1) in
    store_g_bundle_path (Some bundle_path_tmp) ;;
    mono_droid_runtime_init entryPointLibName (to_int current_local_time)
  else
    LOG_ERROR "Failed to allocate memory for bundle_path" [] ;;
    ret (-1)%Z.

(** [managed_argv[i + 1] = GetStringUTFChars (GetObjectArrayElement (j_args, i))] *)
Definition store_arg (j_args : list string) (i : nat)
    (managed_argv : list (option string)) : list (option string) :=
  match j_args !! i with
  | Some j_arg => <[i + 1 := Some j_arg]> managed_argv
  | None => managed_argv
  end.

Definition Java_net_dot_MonoRunner_execEntryPoint
    (j_entryPointLibName : string) (j_args : list string) : M Z :=
  LOG_INFO "Java_net_dot_MonoRunner_execEntryPoint (Mono):" [] ;;
  let* bundle_path := load g_bundle_path in
  match bundle_path with
  | None =>
      LOG_ERROR "Bundle path or executable name not set" [] ;;
      ret (-1)%Z
  | Some bundle_path =>
      let* domain := load g_domain in
      let* assembly := load g_assembly in
      match domain, assembly with
      | Some domain, Some assembly =>
          let args_len := length j_args in
          let managed_argc := args_len + 1 in
          (* malloc: [managed_argc] slots, none written yet *)
          let managed_argv : list (option string) := replicate managed_argc None in
          let managed_argv := <[0 := Some bundle_path]> managed_argv in
          let managed_argv := for_loop 0 args_len (store_arg j_args) managed_argv in
          let* rv := mono_droid_execute_assembly domain assembly
                       (Z.of_nat managed_argc) managed_argv in
          do_call (Free_argv managed_argv) ;;
          ret rv
      | _, _ =>
          LOG_ERROR "Mono domain or assembly not initialized" [] ;;
          ret (-1)%Z
      end
  end.

Definition Java_net_dot_MonoRunner_freeNativeResources : M unit :=
  LOG_INFO "Java_net_dot_MonoRunner_freeNativeResources (Mono):" [] ;;
  free_resources.

End Shim.

(** ** The lifecycle, as the host drives it *)

Inductive lifecycle_op : Type :=
| SetEnv (key value : string)
| InitRuntime (files_dir entryPointLibName : string) (current_local_time : Z)
| ExecEntryPoint (entryPointLibName : string) (args : list string)
| FreeNativeResources.

(** One entry point, with its [int] result if it has one. *)
Definition run_op (X : Externals) (cfg : BuildConfig)
    (o : lifecycle_op) : M (option Z) :=
  match o with
  | SetEnv key value =>
      Java_net_dot_MonoRunner_setEnv key value ;; ret None
  | InitRuntime files_dir lib t =>
      let* rv := Java_net_dot_MonoRunner_initRuntime X cfg files_dir lib t in
      ret (Some rv)
  | ExecEntryPoint lib args =>
      let* rv := Java_net_dot_MonoRunner_execEntryPoint X lib args in
      ret (Some rv)
  | FreeNativeResources =>
      Java_net_dot_MonoRunner_freeNativeResources ;; ret None
  end.

(** The worlds a process built with [cfg] can be in between two entry
    points, whatever the externals answer at each. *)
Inductive reachable (cfg : BuildConfig) : World -> Prop :=
| reachable_start env : reachable cfg (initial_world env)
| reachable_step X o w v w' :
    reachable cfg w ->
    run_op X cfg o w = Returned v w' ->
    reachable cfg w'.

(** ** Sample hosts, for running the model on concrete inputs *)

Definition sample_config : BuildConfig :=
  {| target := aarch64; DIAGNOSTIC_PORTS := None; FORCE_INTERPRETER := false;
     FORCE_AOT := false; STATIC_AOT := false; FULL_AOT := false |}.

(** A host whose engine answers [rv] to [monovm_initialize], [domain]
    to [mono_jit_init_version], finds the files of [present], opens the
    assemblies of [opens] and runs every program to [exit_code]; no
    [.aotdata] file can be opened. *)
Definition sample_host
    (rv : Z) (domain : option MonoDomain)
    (present : string -> bool) (opens : string -> option MonoAssembly)
    (exit_code : Z) : Externals :=
  {| stat_ok := present;
     open_rdonly := fun _ => (-1)%Z;
     mmap_private := fun _ _ => None;
     malloc_ok := fun _ => true;
     monovm_initialize := fun _ _ => rv;
     mono_jit_init_version := fun _ _ => domain;
     mono_assembly_open := opens;
     mono_assembly_get_name := fun _ => "App";
     mono_jit_exec := fun _ _ _ _ => exit_code |}.

Definition sample_domain : MonoDomain := domain_at 1.
Definition sample_assembly : MonoAssembly := assembly_at 2.

(** A world after a successful initialization under [/data/app]. *)
Definition ready_world : World :=
  mkWorld (Some "/data/app") (Some sample_domain) (Some sample_assembly) ∅ [] [].

(** ** The unhandled-exception sink *)

(** Managed objects, methods and classes, as the engine hands them out. *)
Inductive MonoObject : Type := object_at (addr : positive).
Inductive MonoMethod : Type := method_at (addr : positive).
Inductive MonoClass : Type := class_at (addr : positive).

(** The engine's reflection calls, as the sink uses them. *)
Record Reflection : Type := {
  (** [mono_class_get_method_from_name (mono_get_exception_class (), name, 0)] *)
  mono_class_get_method_from_name : string -> option MonoMethod;
  mono_object_get_virtual_method : MonoObject -> MonoMethod -> option MonoMethod;
  (** [mono_runtime_invoke (method, obj, NULL, &exc)]: the value returned *)
  mono_runtime_invoke : MonoMethod -> MonoObject -> option MonoObject;
  (** the characters of a [MonoString] *)
  mono_string_to_utf8 : MonoObject -> string;
  mono_object_get_class : MonoObject -> MonoClass;
  mono_class_get_namespace : MonoClass -> string;
  mono_class_get_name : MonoClass -> string
}.

(** A line of [printf]: the format and its arguments. *)
Definition stdout_line : Type := (string * list log_arg)%type.

(** [strdup_printf (msg, ...)] where [formatted] is the expansion of
    [msg]: [vasprintf] sizes the buffer itself, nothing is cut. *)
Definition strdup_printf (formatted : string) : string := formatted.

(** The value and what was printed on the way. *)
Definition mono_droid_fetch_exception_property
    (R : Reflection) (obj : MonoObject) (name : string) (is_virtual : bool)
    : option MonoObject * list stdout_line :=
  match mono_class_get_method_from_name R name with
  | Some get =>
      let get :=
        if is_virtual then
          match mono_object_get_virtual_method R obj get with
          | Some get_virt => get_virt
          | None => get
          end
        else get in
      (mono_runtime_invoke R get obj, [])
  | None =>
      (None,
       [("Could not find the property System.Exception.%s", [Str (Some name)])])
  end.

Definition mono_droid_fetch_exception_property_string
    (R : Reflection) (obj : MonoObject) (name : string) (is_virtual : bool)
    : option string * list stdout_line :=
  let '(str, printed) :=
    mono_droid_fetch_exception_property R obj name is_virtual in
  (match str with
   | Some str => Some (mono_string_to_utf8 R str)
   | None => None
   end, printed).

(** How a process that called [exit] ended. *)
Record process_exit : Type := {
  exit_status : Z;
  exit_world : World;
  exit_stdout : list stdout_line
}.

(** [free (p)], which does nothing on [NULL]. *)
Definition free (p : option string) : M unit :=
  match p with
  | Some s => do_call (Free_string s)
  | None => ret tt
  end.

Definition unhandled_exception_handler
    (R : Reflection) (exc : MonoObject) (w : World) : process_exit :=
  let type := mono_object_get_class R exc in
  let type_name :=
    strdup_printf
      (mono_class_get_namespace R type +:+ "." +:+ mono_class_get_name R type) in
  let '(trace, printed_trace) :=
    mono_droid_fetch_exception_property_string R exc "get_StackTrace" true in
  let '(message, printed_message) :=
    mono_droid_fetch_exception_property_string R exc "get_Message" true in
  let before_exit :=
    (LOG_ERROR "UnhandledException: %s %s %s"
       [Str (Some type_name); Str message; Str trace] ;;
     free trace ;;
     free message ;;
     free (Some type_name)) w in
  {| exit_status := 1;
     exit_world := world_of before_exit;
     exit_stdout := printed_trace ++ printed_message |}.

(** ** The calls of an initialization, in their order *)

(** The calls of the [#if FORCE_INTERPRETER ... #elif FORCE_AOT ... #endif]
    block. *)
Definition aot_mode_calls (cfg : BuildConfig) : list call :=
  if FORCE_INTERPRETER cfg then
    [Mono_jit_set_aot_mode MONO_AOT_MODE_INTERP_ONLY]
  else if FORCE_AOT cfg then
    (if STATIC_AOT cfg then [Register_aot_modules] else [])
    ++ [Mono_jit_set_aot_mode
          (if FULL_AOT cfg then MONO_AOT_MODE_FULL else MONO_AOT_MODE_NORMAL)]
  else [].

Definition runtimeconfig_path (bundle_path : string) : string :=
  bundle_path +:+ "/" +:+ RUNTIMECONFIG_BIN_FILE.

(** From the [setenv] of a [DIAGNOSTIC_PORTS] build to the creation of
    the domain. *)
Definition domain_setup_calls
    (X : Externals) (cfg : BuildConfig) (bundle_path : string) (offset : Z)
    : list call :=
  match DIAGNOSTIC_PORTS cfg with
  | Some ports => [Setenv "DOTNET_DiagnosticPorts" ports true]
  | None => []
  end
  ++
  [Chdir (Some bundle_path);
   Stat (runtimeconfig_path bundle_path);
   if stat_ok X (runtimeconfig_path bundle_path)
   then Monovm_runtimeconfig_initialize (runtimeconfig_path bundle_path)
   else Free_string (runtimeconfig_path bundle_path);
   Monovm_initialize appctx_keys (appctx_values cfg bundle_path offset);
   Mono_debug_init;
   Mono_install_assembly_preload_hook;
   Mono_install_load_aot_data_hook;
   Mono_install_unhandled_exception_hook;
   Mono_trace_set_log_handler;
   Mono_set_signal_chaining true;
   Mono_set_crash_chaining true]
  ++ aot_mode_calls cfg
  ++ [Mono_jit_init_version "dotnet.android" "mobile"].

(** The load of the entry assembly, once the domain exists. *)
Definition entry_assembly_calls
    (X : Externals) (bundle_path executable : string) : list call :=
  match mono_jit_init_version X "dotnet.android" "mobile" with
  | None => []
  | Some _ =>
      let path := fst (assembly_path bundle_path executable None) in
      Stat path :: (if stat_ok X path then [Mono_assembly_open path] else [])
  end.

(** The calls that run the program or let go of a handle. *)
Definition runs_or_releases (c : call) : bool :=
  match c with
  | Mono_assembly_close _ | Mono_domain_set _ _ | Mono_domain_finalize _ _
  | Mono_jit_cleanup _ | Mono_jit_exec _ _ _ _ => true
  | _ => false
  end.

(** The environment after [mono_droid_runtime_init]. *)
Definition diagnostic_environ
    (cfg : BuildConfig) (env : gmap string string) : gmap string string :=
  match DIAGNOSTIC_PORTS cfg with
  | Some ports => <["DOTNET_DiagnosticPorts" := ports]> env
  | None => env
  end.

(** More sample data. *)
Definition sample_exception : MonoObject := object_at 7.

(** An engine whose exceptions are [System.InvalidOperationException]s
    with the getters of [getters], none overridden, each returning the
    string object of its own name. *)
Definition sample_reflection (getters : list string) : Reflection :=
  {| mono_class_get_method_from_name :=
       fun name =>
         if bool_decide (name ∈ getters) then Some (method_at 1) else None;
     mono_object_get_virtual_method := fun _ _ => None;
     mono_runtime_invoke := fun _ _ => Some (object_at 9);
     mono_string_to_utf8 := fun _ => "text";
     mono_object_get_class := fun _ => class_at 3;
     mono_class_get_namespace := fun _ => "System";
     mono_class_get_name := fun _ => "InvalidOperationException" |}.

(** * Properties *)

(** Running the monad's primitives where they stand. *)
Ltac shim_run :=
  cbv beta iota zeta delta
    [bind ret load c_assert abort do_call LOG_INFO LOG_ERROR android_log_print
     store_g_bundle_path store_g_domain store_g_assembly setenv
     g_bundle_path g_domain g_assembly environ calls logcat];
  change (valid_env_name "DOTNET_DiagnosticPorts") with true;
  cbv beta iota;
  cbn [fst snd world_of returned].

(** ** Strings *)

#[local] Arguments String.append !s1 s2 : simpl nomatch.

Lemma length_append (p q : string) :
  String.length (p +:+ q) = String.length p + String.length q.
Proof. induction p as [|c p IH]; simpl; [reflexivity | now rewrite IH]. Qed.

Lemma truncate_all (n : nat) (s : string) :
  strlen s <= n -> truncate n s = s.
Proof.
  revert n. induction s as [|c s IH]; intros [|n] Hn; simpl in *;
    try reflexivity; try lia.
  f_equal. apply IH. unfold strlen in *. lia.
Qed.

Lemma length_truncate (n : nat) (s : string) :
  String.length (truncate n s) = Nat.min n (String.length s).
Proof.
  revert n. induction s as [|c s IH]; intros [|n]; simpl; try reflexivity.
  now rewrite IH.
Qed.

Lemma offset_append (p q : string) (k : nat) :
  offset (String.length p + k) (p +:+ q) = offset k q.
Proof. induction p as [|c p IH]; simpl; [reflexivity | exact IH]. Qed.

Lemma get_append (p q : string) (k : nat) :
  String.get (String.length p + k) (p +:+ q) = String.get k q.
Proof. induction p as [|c p IH]; simpl; [reflexivity | exact IH]. Qed.

Lemma truncate_offset (n : nat) (s : string) :
  truncate n s +:+ offset n s = s.
Proof.
  revert n. induction s as [|c s IH]; intros [|n]; simpl; try reflexivity.
  now rewrite IH.
Qed.

Lemma length_offset (n : nat) (s : string) :
  String.length (offset n s) = String.length s - n.
Proof.
  revert n. induction s as [|c s IH]; intros [|n]; simpl; try reflexivity.
  apply IH.
Qed.

Lemma offset_S (n : nat) (s : string) :
  offset (S n) s = offset 1 (offset n s).
Proof.
  revert n. induction s as [|c s IH]; intros [|n]; try reflexivity.
  change (offset (S n) s = offset 1 (offset n s)). apply IH.
Qed.

Lemma get_offset (n : nat) (s : string) :
  String.get n s = String.get 0 (offset n s).
Proof.
  revert n. induction s as [|c s IH]; intros [|n]; simpl; try reflexivity.
  apply IH.
Qed.

(** The boolean test of a suffix decides [ends_with]. *)
Lemma ends_withb_spec (suffix s : string) :
  ends_withb suffix s = true <-> ends_with suffix s.
Proof.
  unfold ends_withb, ends_with, strlen. split.
  - intros H. apply andb_true_iff in H as [_ H].
    apply String.eqb_eq in H.
    exists (truncate (String.length s - String.length suffix) s).
    transitivity (truncate (String.length s - String.length suffix) s
                  +:+ offset (String.length s - String.length suffix) s).
    + symmetry. apply truncate_offset.
    + f_equal. exact H.
  - intros [p ->]. rewrite length_append. apply andb_true_iff. split.
    + apply Nat.leb_le. lia.
    + replace (String.length p + String.length suffix - String.length suffix)
        with (String.length p + 0) by lia.
      rewrite offset_append. simpl. apply String.eqb_refl.
Qed.

Lemma ends_withb_false (suffix s : string) :
  ends_withb suffix s = false <-> ~ ends_with suffix s.
Proof.
  rewrite <- ends_withb_spec. destruct (ends_withb suffix s); split;
    congruence.
Qed.

(** ** The extension test *)

(** A string of four characters, taken apart. *)
Lemma length_4_inv (t : string) :
  String.length t = 4 ->
  exists c0 c1 c2 c3,
    t = String c0 (String c1 (String c2 (String c3 EmptyString))).
Proof.
  destruct t as [|c0 [|c1 [|c2 [|c3 [|c4 t]]]]]; simpl; try discriminate.
  intros _. now exists c0, c1, c2, c3.
Qed.

(** [has_extension] holds exactly of the names that end in ".exe" or
    in ".dll", letter for letter. *)
Lemma has_extension_spec (name : string) :
  has_extension name = true <->
  ends_with ".exe" name \/ ends_with ".dll" name.
Proof.
  unfold has_extension, char_is, strcmp_eq, strlen. split.
  - intros H.
    apply andb_true_iff in H as [H Hsuf].
    apply andb_true_iff in H as [Hlen Hdot].
    apply Nat.ltb_lt in Hlen.
    set (len := String.length name) in *.
    assert (Ht : String.length (offset (len - 4) name) = 4)
      by (rewrite length_offset; fold len; lia).
    destruct (length_4_inv _ Ht) as (c0 & c1 & c2 & c3 & Et).
    rewrite get_offset, Et in Hdot.
    change (Ascii.eqb c0 "." = true) in Hdot.
    apply Ascii.eqb_eq in Hdot. subst c0.
    replace (len - 3) with (S (len - 4)) in Hsuf by lia.
    rewrite offset_S, Et in Hsuf.
    change (offset 1 (String "." ?t)) with t in Hsuf.
    pose proof (truncate_offset (len - 4) name) as Hname.
    rewrite Et in Hname.
    apply orb_true_iff in Hsuf as [Hs | Hs];
      apply String.eqb_eq in Hs; rewrite <- Hs in Hname;
      [left | right]; exists (truncate (len - 4) name);
      symmetry; exact Hname.
  - assert (Hsuf : forall p suf c1 c2 c3,
        suf = String "." (String c1 (String c2 (String c3 EmptyString))) ->
        (3 <? String.length (p +:+ suf)) = true /\
        String.get (String.length (p +:+ suf) - 4) (p +:+ suf) = Some "."%char /\
        offset (String.length (p +:+ suf) - 3) (p +:+ suf)
          = String c1 (String c2 (String c3 EmptyString))).
    { intros p suf c1 c2 c3 ->. rewrite length_append. simpl.
      split; [apply Nat.ltb_lt; lia|]. split.
      - replace (String.length p + 4 - 4) with (String.length p + 0) by lia.
        now rewrite get_append.
      - replace (String.length p + 4 - 3) with (String.length p + 1) by lia.
        now rewrite offset_append. }
    intros [[p ->] | [p ->]].
    + destruct (Hsuf p ".exe" "e"%char "x"%char "e"%char eq_refl)
        as (-> & -> & ->). reflexivity.
    + destruct (Hsuf p ".dll" "d"%char "l"%char "l"%char eq_refl)
        as (-> & -> & ->). reflexivity.
Qed.

Lemma has_extension_false (name : string) :
  has_extension name = false <->
  ~ ends_with ".exe" name /\ ~ ends_with ".dll" name.
Proof.
  split.
  - intros Hf. split; intros Hs;
      assert (has_extension name = true)
        by (apply has_extension_spec; auto);
      congruence.
  - intros [Hexe Hdll]. destruct (has_extension name) eqn:E; [|reflexivity].
    apply has_extension_spec in E. tauto.
Qed.

(** A name of fewer than four characters has no room for either suffix. *)
Lemma short_name_no_suffix (suffix name : string) :
  strlen name < strlen suffix -> ~ ends_with suffix name.
Proof.
  unfold strlen. intros Hlen [p ->]. rewrite length_append in Hlen. lia.
Qed.

Lemma has_extension_ends_withb (name : string) :
  has_extension name = ends_withb ".dll" name || ends_withb ".exe" name.
Proof.
  destruct (has_extension name) eqn:E; symmetry.
  - apply has_extension_spec in E. apply orb_true_iff.
    rewrite !ends_withb_spec. tauto.
  - apply has_extension_false in E. apply orb_false_iff.
    rewrite !ends_withb_false. tauto.
Qed.

(** ** The candidate path *)

(** While the file name fits its buffer, the buffer holds the name, or
    the name and ".dll". *)
Lemma assembly_filename_fits (name : string) :
  strlen (spec_filename name) <= 1023 ->
  assembly_filename name = spec_filename name.
Proof.
  unfold assembly_filename, spec_filename, strlcpy, strlcat, strlen.
  rewrite <- has_extension_ends_withb.
  destruct (has_extension name); intros Hlen.
  - apply truncate_all. unfold strlen. lia.
  - rewrite length_append in Hlen. change (String.length ".dll") with 4 in Hlen.
    rewrite (truncate_all (1024 - 1) name) by (unfold strlen; lia).
    destruct (Nat.leb_spec 1024 (String.length name)) as [Hge | _]; [lia|].
    f_equal. apply truncate_all. unfold strlen.
    change (String.length ".dll") with 4. lia.
Qed.

(** The two formats are the two shapes of the specification. *)
Lemma format_assembly_path_spec
    (bundle_path : string) (culture : option string) (filename : string) :
  format_assembly_path bundle_path culture filename
    = spec_candidate_path bundle_path culture filename.
Proof. now destruct culture as [[|c s]|]. Qed.

Lemma length_spec_candidate_path
    (bundle_path : string) (culture : option string) (filename : string) :
  strlen filename < strlen (spec_candidate_path bundle_path culture filename).
Proof.
  unfold strlen, spec_candidate_path.
  destruct culture as [[|c s]|]; rewrite !length_append; simpl; lia.
Qed.

(** [assert (res > 0)] holds: every expansion has its "/". *)
Lemma assembly_path_res_pos (bundle_path name : string) (culture : option string) :
  (0 <? snd (assembly_path bundle_path name culture))%Z = true.
Proof.
  unfold assembly_path, snprintf. rewrite format_assembly_path_spec.
  pose proof (length_spec_candidate_path bundle_path culture
                (assembly_filename name)).
  apply Z.ltb_lt. simpl. lia.
Qed.

(** What [mono_droid_load_assembly] does in a world whose bundle path
    is set: one log line, [stat] on the candidate path, and the
    engine's [mono_assembly_open] when the file is there. *)
Lemma mono_droid_load_assembly_run
    (X : Externals) (name : string) (culture : option string)
    (w : World) (bundle_path : string) :
  g_bundle_path w = Some bundle_path ->
  let path := fst (assembly_path bundle_path name culture) in
  let line :=
    Build_log_record ANDROID_LOG_DEBUG "assembly_preload_hook: %s %s %s\n"
      [Str (Some name); Str culture; Str (Some bundle_path)] in
  let w1 :=
    mkWorld (g_bundle_path w) (g_domain w) (g_assembly w) (environ w)
      (calls w ++ [Stat path]) (logcat w ++ [line]) in
  let w2 :=
    mkWorld (g_bundle_path w) (g_domain w) (g_assembly w) (environ w)
      ((calls w ++ [Stat path]) ++ [Mono_assembly_open path])
      (logcat w ++ [line]) in
  mono_droid_load_assembly X name culture w =
    if stat_ok X path then
      match mono_assembly_open X path with
      | Some assembly => Returned (Some assembly) w2
      | None => Aborted w2
      end
    else Returned None w1.
Proof.
  destruct w as [bp d a env cs lg]. cbn [g_bundle_path]. intros ->.
  pose proof (assembly_path_res_pos bundle_path name culture) as Hres.
  unfold mono_droid_load_assembly. shim_run.
  destruct (assembly_path bundle_path name culture) as [path res].
  cbn [snd] in Hres. shim_run. rewrite Hres.
  destruct (stat_ok X path); [|reflexivity].
  destruct (mono_assembly_open X path); reflexivity.
Qed.

(** C2, as amended: within the buffers, the candidate path of assembly
    resolution is the bundle path, the culture directory when a
    non-empty culture is given, and the file name, which is the
    requested name with ".dll" appended only when it ends in neither
    ".dll" nor ".exe"; and that path is the one [mono_droid_load_assembly]
    hands to [stat] first.  "Within the buffers" is: the whole path has
    at most 1022 characters. *)
Theorem assembly_path_within_buffers
    (bundle_path name : string) (culture : option string) :
  strlen (spec_candidate_path bundle_path culture (spec_filename name)) <= 1022 ->
  fst (assembly_path bundle_path name culture)
    = spec_candidate_path bundle_path culture (spec_filename name)
  /\ forall (X : Externals) (w : World),
      g_bundle_path w = Some bundle_path ->
      exists rest,
        calls (world_of (mono_droid_load_assembly X name culture w))
          = calls w
            ++ Stat (spec_candidate_path bundle_path culture (spec_filename name))
            :: rest.
Proof.
  intros Hlen.
  assert (Hpath : fst (assembly_path bundle_path name culture)
            = spec_candidate_path bundle_path culture (spec_filename name)).
  { pose proof (length_spec_candidate_path bundle_path culture
                  (spec_filename name)) as Hfn.
    unfold assembly_path, snprintf. cbn [fst].
    rewrite format_assembly_path_spec, assembly_filename_fits by lia.
    apply truncate_all. lia. }
  split; [exact Hpath|].
  intros X w Hbp.
  rewrite (mono_droid_load_assembly_run X name culture w bundle_path Hbp).
  rewrite Hpath.
  destruct (stat_ok X _).
  - eexists [Mono_assembly_open _].
    destruct (mono_assembly_open X _); cbn [world_of calls];
      now rewrite <- app_assoc.
  - now exists [].
Qed.

(** The three resolutions the specification lists, and an empty
    culture. *)
Lemma assembly_path_within_buffers_witness :
  fst (assembly_path "/data/app" "App" None) = "/data/app/App.dll"
  /\ fst (assembly_path "/data/app" "App.exe" None) = "/data/app/App.exe"
  /\ fst (assembly_path "/data/app" "App" (Some "fr")) = "/data/app/fr/App.dll"
  /\ fst (assembly_path "/data/app" "App" (Some EmptyString))
       = "/data/app/App.dll".
Proof.
  split; [|split; [|split]].
  - apply (assembly_path_within_buffers "/data/app" "App" None).
    vm_compute. lia.
  - apply (assembly_path_within_buffers "/data/app" "App.exe" None).
    vm_compute. lia.
  - apply (assembly_path_within_buffers "/data/app" "App" (Some "fr")).
    vm_compute. lia.
  - apply (assembly_path_within_buffers "/data/app" "App" (Some EmptyString)).
    vm_compute. lia.
Defined.

(** The buffer [path] never holds more than 1022 characters. *)
Lemma assembly_path_bounded (bundle_path name : string) (culture : option string) :
  strlen (fst (assembly_path bundle_path name culture)) <= 1022.
Proof.
  unfold assembly_path, snprintf, strlen. cbn [fst].
  rewrite length_truncate. lia.
Qed.

(** C2, as stated, fails on a long path.  [initRuntime] takes a
    directory of up to 2047 characters; for one of 1106 characters and
    the name "App" the specification asks for the directory, "/" and
    "App.dll", while the buffer [path] holds the first 1022 characters
    of the directory and nothing of the name. *)
Lemma assembly_path_truncates_long_path :
  let bundle_path := "/data/" +:+ replicate_char 1100 "a" in
  spec_candidate_path bundle_path None (spec_filename "App")
    = bundle_path +:+ "/App.dll"
  /\ fst (assembly_path bundle_path "App" None) = truncate 1022 bundle_path
  /\ fst (assembly_path bundle_path "App" None)
       <> spec_candidate_path bundle_path None (spec_filename "App").
Proof.
  cbv zeta. split; [|split].
  - vm_compute. reflexivity.
  - vm_compute. reflexivity.
  - intros H. apply (f_equal String.length) in H. vm_compute in H.
    discriminate H.
Qed.

(** C9, as amended: the extension test holds of exactly the names that
    end in ".exe" or ".dll" letter for letter, so of no name shorter
    than four characters and of none that differs in case; and a name
    of at most 1019 characters that is shorter than four characters, or
    whose last four characters are neither ".dll" nor ".exe", gets
    ".dll" appended. *)
Theorem dll_appended_without_extension (name : string) :
  (has_extension name = true <->
   ends_with ".exe" name \/ ends_with ".dll" name)
  /\ (strlen name <= 1019 ->
      strlen name < 4 \/ (~ ends_with ".dll" name /\ ~ ends_with ".exe" name) ->
      has_extension name = false /\ assembly_filename name = name +:+ ".dll").
Proof.
  split; [apply has_extension_spec|].
  intros Hlen Hsuf.
  assert (Hno : ~ ends_with ".exe" name /\ ~ ends_with ".dll" name).
  { destruct Hsuf as [Hshort | [Hdll Hexe]]; [|tauto].
    split; apply short_name_no_suffix; exact Hshort. }
  apply has_extension_false in Hno.
  split; [exact Hno|].
  assert (Hspec : spec_filename name = name +:+ ".dll").
  { unfold spec_filename. now rewrite <- has_extension_ends_withb, Hno. }
  rewrite <- Hspec. apply assembly_filename_fits.
  rewrite Hspec. unfold strlen in *. rewrite length_append.
  change (String.length ".dll") with 4. lia.
Qed.

(** An upper-case extension, and a name that is an extension without
    its dot. *)
Lemma dll_appended_without_extension_witness :
  (has_extension "App.DLL" = false
   /\ assembly_filename "App.DLL" = "App.DLL.dll")
  /\ (has_extension "dll" = false /\ assembly_filename "dll" = "dll.dll").
Proof.
  split.
  - apply (proj2 (dll_appended_without_extension "App.DLL")).
    + vm_compute. lia.
    + right. split; apply ends_withb_false; reflexivity.
  - apply (proj2 (dll_appended_without_extension "dll")).
    + vm_compute. lia.
    + left. vm_compute. lia.
Defined.

(** C9, as stated, fails on a long name: 1020 letters [a] do not end in
    ".dll" or ".exe", and [strlcat] has room for ".dl" only. *)
Lemma dll_cut_short_on_long_name :
  let name := replicate_char 1020 "a" in
  (~ ends_with ".dll" name /\ ~ ends_with ".exe" name)
  /\ assembly_filename name = name +:+ ".dl"
  /\ assembly_filename name <> name +:+ ".dll".
Proof.
  cbv zeta. split; [|split].
  - split; apply ends_withb_false; vm_compute; reflexivity.
  - vm_compute. reflexivity.
  - intros H. apply (f_equal String.length) in H. vm_compute in H.
    discriminate H.
Qed.

(** ** Execution before initialization, release, execution after release *)

(** C1: while the bundle path is unset, or the domain or the entry
    assembly is null, [execEntryPoint] returns -1 at once: it makes no
    call out of the file, the engine's [mono_jit_exec] included, and
    leaves the three globals (and the environment) as they were; it
    writes its two log lines. *)
Theorem execEntryPoint_rejects_uninitialized
    (X : Externals) (lib : string) (args : list string) (w : World) :
  g_bundle_path w = None \/ g_domain w = None \/ g_assembly w = None ->
  exists w',
    Java_net_dot_MonoRunner_execEntryPoint X lib args w = Returned (-1)%Z w'
    /\ calls w' = calls w
    /\ g_bundle_path w' = g_bundle_path w
    /\ g_domain w' = g_domain w
    /\ g_assembly w' = g_assembly w
    /\ environ w' = environ w.
Proof.
  destruct w as [bp d a env cs lg]. cbn [g_bundle_path g_domain g_assembly].
  intros H. unfold Java_net_dot_MonoRunner_execEntryPoint. shim_run.
  destruct bp as [bp|]; [|eexists; repeat split; reflexivity].
  shim_run.
  destruct d as [d|], a as [a|];
    try (eexists; repeat split; reflexivity).
  destruct H as [H | [H | H]]; discriminate H.
Qed.

(** In a fresh process, and after an initialization that created the
    domain and found no entry assembly. *)
Lemma execEntryPoint_rejects_uninitialized_witness :
  (exists w',
     Java_net_dot_MonoRunner_execEntryPoint
       (sample_host 0 None (fun _ => false) (fun _ => None) 0)
       "App" ["x"] (initial_world ∅) = Returned (-1)%Z w'
     /\ calls w' = []
     /\ g_bundle_path w' = None
     /\ g_domain w' = None
     /\ g_assembly w' = None
     /\ environ w' = ∅)
  /\ (exists w',
     Java_net_dot_MonoRunner_execEntryPoint
       (sample_host 0 None (fun _ => false) (fun _ => None) 0)
       "App" ["x"]
       (mkWorld (Some "/data/app") (Some sample_domain) None ∅ [] [])
       = Returned (-1)%Z w'
     /\ calls w' = []
     /\ g_bundle_path w' = Some "/data/app"
     /\ g_domain w' = Some sample_domain
     /\ g_assembly w' = None
     /\ environ w' = ∅).
Proof.
  split.
  - apply (execEntryPoint_rejects_uninitialized _ "App" ["x"] (initial_world ∅)).
    left. reflexivity.
  - apply (execEntryPoint_rejects_uninitialized _ "App" ["x"]
             (mkWorld (Some "/data/app") (Some sample_domain) None ∅ [] [])).
    right. right. reflexivity.
Defined.

(** What one [free_resources] hands back, by the globals it finds. *)
Lemma free_resources_run (w : World) :
  free_resources w =
    Returned tt
      (mkWorld None None None (environ w)
         (calls w
          ++ match g_bundle_path w with
             | Some p => [Free_string p]
             | None => []
             end
          ++ match g_assembly w with
             | Some a => [Mono_assembly_close a]
             | None => []
             end
          ++ match g_domain w with
             | Some d => [Mono_domain_set d false; Mono_domain_finalize d 0]
             | None => []
             end)
         (logcat w)).
Proof.
  destruct w as [[bp|] [d|] [a|] env cs lg]; unfold free_resources; shim_run;
    rewrite <- ?app_assoc, ?app_nil_r; reflexivity.
Qed.

(** C3: from any world, one [freeNativeResources] leaves the bundle
    path, the entry assembly and the domain null, having freed, closed
    and finalized exactly those that were non-null; a second call right
    after makes no call at all and leaves the three null. *)
Theorem freeNativeResources_idempotent (w : World) :
  exists w1 w2,
    Java_net_dot_MonoRunner_freeNativeResources w = Returned tt w1
    /\ (g_bundle_path w1 = None /\ g_assembly w1 = None /\ g_domain w1 = None)
    /\ calls w1 =
         calls w
         ++ match g_bundle_path w with
            | Some p => [Free_string p]
            | None => []
            end
         ++ match g_assembly w with
            | Some a => [Mono_assembly_close a]
            | None => []
            end
         ++ match g_domain w with
            | Some d => [Mono_domain_set d false; Mono_domain_finalize d 0]
            | None => []
            end
    /\ Java_net_dot_MonoRunner_freeNativeResources w1 = Returned tt w2
    /\ calls w2 = calls w1
    /\ (g_bundle_path w2 = None /\ g_assembly w2 = None /\ g_domain w2 = None).
Proof.
  unfold Java_net_dot_MonoRunner_freeNativeResources.
  unfold bind at 1, LOG_INFO at 1, android_log_print at 1.
  rewrite free_resources_run. cbn [g_bundle_path g_domain g_assembly calls].
  do 2 eexists. split; [reflexivity|].
  unfold bind, LOG_INFO, android_log_print. rewrite free_resources_run.
  cbn [g_bundle_path g_domain g_assembly calls environ logcat].
  rewrite !app_nil_r. repeat split; reflexivity.
Qed.

(** C10: after [freeNativeResources], whatever the world was,
    [execEntryPoint] returns -1 and makes no call out of the file: the
    calls made are those of the release, none of them the engine's
    [mono_jit_exec]. *)
Theorem execEntryPoint_after_release
    (X : Externals) (lib : string) (args : list string) (w : World) :
  exists w1 w2,
    Java_net_dot_MonoRunner_freeNativeResources w = Returned tt w1
    /\ Java_net_dot_MonoRunner_execEntryPoint X lib args w1 = Returned (-1)%Z w2
    /\ calls w2 = calls w1
    /\ (forall c, In c (calls w2) -> is_jit_exec c = true -> In c (calls w))
    /\ (g_bundle_path w2 = None /\ g_domain w2 = None /\ g_assembly w2 = None).
Proof.
  destruct w as [bp d a env cs lg].
  unfold Java_net_dot_MonoRunner_freeNativeResources.
  unfold bind at 1, LOG_INFO at 1, android_log_print at 1.
  rewrite free_resources_run. cbn [g_bundle_path g_domain g_assembly calls].
  do 2 eexists. split; [reflexivity|].
  unfold Java_net_dot_MonoRunner_execEntryPoint. shim_run.
  split; [reflexivity|]. split; [reflexivity|].
  split; [|repeat split; reflexivity].
  intros c Hin Hexec. apply in_app_or in Hin as [Hin | Hin]; [exact Hin|].
  exfalso. destruct bp, a, d; cbn in Hin; intuition (subst; discriminate Hexec).
Qed.

(** ** Setting the environment *)

(** C7: [setEnv] asserts that no domain exists.  With a domain the
    assertion fails and the call aborts with the environment untouched
    and no call made; with none the call returns, and the world it
    hands back is the one it was given after the one call
    [setenv (key, value, 1)] (and with its two log lines written): no
    global is changed and no other call leaves the file.  That call
    binds [key] to [value] in the environment, over any earlier value;
    for a string that is no variable name to libc (empty, or with a [=]
    in it) [setenv] refuses, the source does not look, and the
    environment is as it was. *)
Theorem setEnv_before_initialization (key value : string) (w : World) :
  (g_domain w <> None ->
   exists w',
     Java_net_dot_MonoRunner_setEnv key value w = Aborted w'
     /\ environ w' = environ w
     /\ calls w' = calls w)
  /\ (g_domain w = None ->
      Java_net_dot_MonoRunner_setEnv key value w =
        Returned tt
          (mkWorld (g_bundle_path w) (g_domain w) (g_assembly w)
             (if valid_env_name key then <[key := value]> (environ w)
              else environ w)
             (calls w ++ [Setenv key value true])
             (logcat w
              ++ [Build_log_record ANDROID_LOG_DEBUG
                    "Java_net_dot_MonoRunner_setEnv:" []]
              ++ [Build_log_record ANDROID_LOG_DEBUG
                    "Setting env var: %s=%s"
                    [Str (Some key); Str (Some value)]])))
  /\ (g_domain w = None ->
      valid_env_name key = true ->
      forall key',
        environ (world_of (Java_net_dot_MonoRunner_setEnv key value w)) !! key'
        = if bool_decide (key' = key) then Some value else environ w !! key').
Proof.
  destruct w as [bp d a env cs lg]. cbn [g_bundle_path g_domain g_assembly
    environ calls logcat].
  unfold Java_net_dot_MonoRunner_setEnv. split; [|split].
  - intros Hd. destruct d as [d|]; [|congruence].
    shim_run. rewrite bool_decide_eq_false_2 by discriminate.
    eexists. repeat split; reflexivity.
  - intros ->. shim_run. rewrite (bool_decide_eq_true_2 _ eq_refl).
    shim_run. rewrite <- app_assoc.
    destruct (valid_env_name key), (env !! key); reflexivity.
  - intros -> Hvalid key'. shim_run. rewrite (bool_decide_eq_true_2 _ eq_refl).
    shim_run. rewrite Hvalid.
    assert (Henv : (match env !! key with
                    | Some _ => <[key := value]> env
                    | None => <[key := value]> env
                    end) = <[key := value]> env)
      by (destruct (env !! key); reflexivity).
    rewrite Henv. case_bool_decide as Hk.
    + subst key'. apply lookup_insert_eq.
    + apply lookup_insert_ne. congruence.
Qed.

(** Once initialized the call aborts; in a fresh process it sets the
    variable, also over an earlier value; under a name with a [=] in it
    the call is made and the environment stays empty. *)
Lemma setEnv_before_initialization_witness :
  (exists w',
     Java_net_dot_MonoRunner_setEnv "MONO_LOG_LEVEL" "debug" ready_world
       = Aborted w'
     /\ environ w' = environ ready_world
     /\ calls w' = calls ready_world)
  /\ environ (world_of
       (Java_net_dot_MonoRunner_setEnv "MONO_LOG_LEVEL" "debug"
          (initial_world {[ "MONO_LOG_LEVEL" := "info" ]})))
     !! "MONO_LOG_LEVEL" = Some "debug"
  /\ Java_net_dot_MonoRunner_setEnv "A=B" "x" (initial_world ∅)
     = Returned tt
         (mkWorld None None None ∅ [Setenv "A=B" "x" true]
            [Build_log_record ANDROID_LOG_DEBUG
               "Java_net_dot_MonoRunner_setEnv:" [];
             Build_log_record ANDROID_LOG_DEBUG "Setting env var: %s=%s"
               [Str (Some "A=B"); Str (Some "x")]]).
Proof.
  split; [|split].
  - apply (proj1 (setEnv_before_initialization
                    "MONO_LOG_LEVEL" "debug" ready_world)).
    discriminate.
  - apply (proj2 (proj2 (setEnv_before_initialization "MONO_LOG_LEVEL" "debug"
                      (initial_world {[ "MONO_LOG_LEVEL" := "info" ]})))
                   eq_refl eq_refl "MONO_LOG_LEVEL").
  - apply (proj1 (proj2 (setEnv_before_initialization "A=B" "x"
                           (initial_world ∅))) eq_refl).
Defined.

(** ** Running the entry point *)

(** The loop of [execEntryPoint] from its [i]-th turn on: the slots
    written so far stay, the remaining ones receive the remaining
    arguments in order. *)
Lemma store_args_from (j_args : list string) (k i : nat)
    (written : list (option string)) :
  i + k = length j_args ->
  length written = i + 1 ->
  for_loop i k (store_arg j_args) (written ++ replicate k None)
    = written ++ (Some <$> drop i j_args).
Proof.
  revert i written. induction k as [|k IH]; intros i written Hik Hlen.
  - rewrite drop_ge by lia. reflexivity.
  - destruct (lookup_lt_is_Some_2 j_args i) as [j_arg Harg]; [lia|].
    cbn [for_loop replicate]. unfold store_arg at 2. rewrite Harg.
    rewrite insert_app_r_alt by lia.
    replace (i + 1 - length written) with 0 by lia. cbn [insert list_insert].
    replace (written ++ Some j_arg :: replicate k None)
      with ((written ++ [Some j_arg]) ++ replicate k None)
      by (now rewrite <- app_assoc).
    rewrite IH by (rewrite ?length_app; simpl; lia).
    rewrite (drop_S _ _ _ Harg), <- app_assoc. reflexivity.
Qed.

(** The argument vector handed to the engine. *)
Lemma managed_argv_filled (bundle_path : string) (j_args : list string) :
  for_loop 0 (length j_args) (store_arg j_args)
    (<[0 := Some bundle_path]> (replicate (length j_args + 1) None))
  = Some <$> (bundle_path :: j_args).
Proof.
  rewrite Nat.add_1_r. cbn [replicate insert list_insert].
  apply (store_args_from j_args (length j_args) 0 [Some bundle_path]);
    reflexivity.
Qed.

(** C8: with the bundle path set and the domain and the entry assembly
    non-null, [execEntryPoint] on [n] arguments calls the engine's
    [mono_jit_exec] once, on the domain and the assembly, with argument
    count [n + 1] and the vector made of the bundle path followed by
    the arguments in their order, and returns the exit code of that
    call; the engine is cleaned up afterwards. *)
Theorem execEntryPoint_runs_assembly
    (X : Externals) (lib : string) (args : list string) (w : World)
    (bundle_path : string) (domain : MonoDomain) (assembly : MonoAssembly) :
  g_bundle_path w = Some bundle_path ->
  g_domain w = Some domain ->
  g_assembly w = Some assembly ->
  let argc := Z.of_nat (length args + 1) in
  let argv := Some <$> (bundle_path :: args) in
  exists w',
    Java_net_dot_MonoRunner_execEntryPoint X lib args w
      = Returned (mono_jit_exec X domain assembly argc argv) w'
    /\ calls w' =
         calls w ++ [Mono_jit_exec domain assembly argc argv;
                     Mono_jit_cleanup domain; Free_argv argv]
    /\ length argv = length args + 1
    /\ argv !! 0 = Some (Some bundle_path)
    /\ (forall i arg, args !! i = Some arg -> argv !! (i + 1) = Some (Some arg)).
Proof.
  intros Hbp Hd Ha argc argv. destruct w as [bp d a env cs lg].
  cbn [g_bundle_path g_domain g_assembly calls] in *. subst bp d a.
  unfold Java_net_dot_MonoRunner_execEntryPoint, mono_droid_execute_assembly.
  shim_run. rewrite managed_argv_filled. fold argv. fold argc.
  eexists. split; [reflexivity|]. cbn [calls].
  split; [now rewrite <- !app_assoc|].
  subst argv. split; [rewrite length_fmap; simpl; lia|].
  split; [reflexivity|].
  intros i arg Hi. rewrite Nat.add_1_r. cbn [fmap list_fmap lookup list_lookup].
  change (((Some <$> args) : list (option string)) !! i = Some (Some arg)).
  rewrite list_lookup_fmap, Hi. reflexivity.
Qed.

(** Two arguments on a ready world: the engine sees three. *)
Lemma execEntryPoint_runs_assembly_witness :
  exists w',
    Java_net_dot_MonoRunner_execEntryPoint
      (sample_host 0 (Some sample_domain) (fun _ => true)
         (fun _ => Some sample_assembly) 42)
      "App" ["--verbose"; "input.txt"] ready_world
      = Returned 42%Z w'
    /\ calls w' =
         [Mono_jit_exec sample_domain sample_assembly 3
            [Some "/data/app"; Some "--verbose"; Some "input.txt"];
          Mono_jit_cleanup sample_domain;
          Free_argv [Some "/data/app"; Some "--verbose"; Some "input.txt"]]
    /\ length [Some "/data/app"; Some "--verbose"; Some "input.txt"] = 3
    /\ [Some "/data/app"; Some "--verbose"; Some "input.txt"] !! 0
         = Some (Some "/data/app")
    /\ (forall i arg,
          ["--verbose"; "input.txt"] !! i = Some arg ->
          [Some "/data/app"; Some "--verbose"; Some "input.txt"] !! (i + 1)
            = Some (Some arg)).
Proof.
  apply (execEntryPoint_runs_assembly
           (sample_host 0 (Some sample_domain) (fun _ => true)
              (fun _ => Some sample_assembly) 42)
           "App" ["--verbose"; "input.txt"] ready_world
           "/data/app" sample_domain sample_assembly);
    reflexivity.
Defined.

(** ** The AOT data hook *)

Lemma aot_data_path_res_pos (bundle_path aname : string) :
  (0 <? snd (aot_data_path bundle_path aname))%Z = true.
Proof.
  unfold aot_data_path, snprintf, strlen. cbn [snd].
  rewrite !length_append. apply Z.ltb_lt. simpl. lia.
Qed.

(** [assert (num_char > 0 && num_char == str_len)] holds. *)
Lemma runtimeconfig_path_assert (bundle_path : string) :
  let str_len := strlen bundle_path + strlen RUNTIMECONFIG_BIN_FILE + 1 in
  let num_char :=
    Z.of_nat (strlen (bundle_path +:+ "/" +:+ RUNTIMECONFIG_BIN_FILE)) in
  (0 <? num_char)%Z && (num_char =? Z.of_nat str_len)%Z = true.
Proof.
  cbv zeta. unfold strlen. rewrite !length_append.
  apply andb_true_iff. split; [apply Z.ltb_lt | apply Z.eqb_eq]; simpl; lia.
Qed.

(** Everything [mono_droid_runtime_init] does before it tests the
    domain leaves the bundle path and the entry assembly alone and
    stores the engine's answer as the domain; what follows is the test
    of the domain and the load of the entry assembly. *)
Lemma mono_droid_runtime_init_run
    (X : Externals) (cfg : BuildConfig) (executable : string) (offset : Z)
    (bundle_path : string) (d : option MonoDomain) (a : option MonoAssembly)
    (env : gmap string string) (cs : list call) (lg : list log_record) :
  exists env' cs' lg',
    mono_droid_runtime_init X cfg executable offset
      (mkWorld (Some bundle_path) d a env cs lg)
    = match mono_jit_init_version X "dotnet.android" "mobile" with
      | None =>
          (LOG_ERROR "mono_jit_init_version failed" [] ;; ret (-1)%Z)
            (mkWorld (Some bundle_path) None a env' cs' lg')
      | Some domain =>
          (let* assembly := mono_droid_load_assembly X executable None in
           store_g_assembly assembly ;;
           match assembly with
           | None =>
               LOG_ERROR "mono_droid_load_assembly failed" [] ;;
               ret (-1)%Z
           | Some _ =>
               ret (monovm_initialize X appctx_keys
                      (appctx_values cfg bundle_path offset))
           end)
            (mkWorld (Some bundle_path) (Some domain) a env' cs' lg')
      end.
Proof.
  unfold mono_droid_runtime_init. shim_run. unfold snprintf. shim_run.
  pose proof (runtimeconfig_path_assert bundle_path) as Hassert.
  cbv zeta in Hassert.
  destruct (mono_jit_init_version X "dotnet.android" "mobile") as [domain|];
    destruct (DIAGNOSTIC_PORTS cfg) as [ports|]; shim_run;
    try destruct (env !! "DOTNET_DiagnosticPorts"); shim_run;
    rewrite Hassert; shim_run;
    destruct (stat_ok X _); shim_run;
    destruct (FORCE_INTERPRETER cfg), (FORCE_AOT cfg), (STATIC_AOT cfg),
      (FULL_AOT cfg); shim_run;
    do 3 eexists; reflexivity.
Qed.

(** The outcome of [mono_droid_runtime_init] and the globals it leaves,
    by the engine's and the file system's answers. *)
Lemma mono_droid_runtime_init_outcome
    (X : Externals) (cfg : BuildConfig) (executable : string) (offset : Z)
    (bundle_path : string) (d : option MonoDomain) (a : option MonoAssembly)
    (env : gmap string string) (cs : list call) (lg : list log_record) :
  let path := fst (assembly_path bundle_path executable None) in
  let rv := monovm_initialize X appctx_keys
              (appctx_values cfg bundle_path offset) in
  exists env' cs' lg',
    mono_droid_runtime_init X cfg executable offset
      (mkWorld (Some bundle_path) d a env cs lg)
    = match mono_jit_init_version X "dotnet.android" "mobile" with
      | None => Returned (-1)%Z (mkWorld (Some bundle_path) None a env' cs' lg')
      | Some domain =>
          if stat_ok X path then
            match mono_assembly_open X path with
            | Some assembly =>
                Returned rv
                  (mkWorld (Some bundle_path) (Some domain) (Some assembly)
                     env' cs' lg')
            | None =>
                Aborted (mkWorld (Some bundle_path) (Some domain) a env' cs' lg')
            end
          else
            Returned (-1)%Z
              (mkWorld (Some bundle_path) (Some domain) None env' cs' lg')
      end.
Proof.
  cbv zeta.
  destruct (mono_droid_runtime_init_run X cfg executable offset
              bundle_path d a env cs lg) as (env1 & cs1 & lg1 & ->).
  destruct (mono_jit_init_version X "dotnet.android" "mobile") as [domain|].
  - unfold bind at 1.
    rewrite (mono_droid_load_assembly_run X executable None
               (mkWorld (Some bundle_path) (Some domain) a env1 cs1 lg1)
               bundle_path eq_refl).
    cbv zeta.
    destruct (stat_ok X _); [destruct (mono_assembly_open X _)|];
      shim_run; do 3 eexists; reflexivity.
  - shim_run. do 3 eexists; reflexivity.
Qed.

(** C4, as amended: with the bundle path set, [mono_droid_runtime_init]
    returns -1 when the engine hands back no domain, and when the entry
    assembly's file is not found under the bundle path; it aborts on its
    assertion, returning nothing, when the file is found and the engine
    does not open it; in every other case it returns the code that
    [monovm_initialize] produced, whatever was done in between.  Hence,
    when that code is not itself -1, the return is -1 exactly in the
    two failure cases. *)
Theorem runtime_init_result
    (X : Externals) (cfg : BuildConfig) (executable : string) (offset : Z)
    (w : World) (bundle_path : string) :
  g_bundle_path w = Some bundle_path ->
  let path := fst (assembly_path bundle_path executable None) in
  let rv := monovm_initialize X appctx_keys
              (appctx_values cfg bundle_path offset) in
  let result := returned (mono_droid_runtime_init X cfg executable offset w) in
  result =
    match mono_jit_init_version X "dotnet.android" "mobile" with
    | None => Some (-1)%Z
    | Some _ =>
        if stat_ok X path then
          match mono_assembly_open X path with
          | Some _ => Some rv
          | None => None
          end
        else Some (-1)%Z
    end
  /\ (rv <> (-1)%Z ->
      (result = Some (-1)%Z <->
       mono_jit_init_version X "dotnet.android" "mobile" = None
       \/ stat_ok X path = false)).
Proof.
  intros Hbp path rv result. destruct w as [bp d a env cs lg].
  cbn [g_bundle_path] in Hbp. subst bp. subst result.
  destruct (mono_droid_runtime_init_outcome X cfg executable offset
              bundle_path d a env cs lg) as (env' & cs' & lg' & ->).
  fold path. fold rv.
  destruct (mono_jit_init_version X "dotnet.android" "mobile") as [domain|];
    [destruct (stat_ok X path); [destruct (mono_assembly_open X path)|]|];
    cbn [returned]; (split; [reflexivity|]); intros Hrv; split;
    try (intros H; congruence); try (intros [H|H]; congruence);
    intros _; auto.
Qed.

(** An engine that answers 0, creates the domain, and finds and opens
    [/data/app/App.dll]: the result is the engine's 0. *)
Lemma runtime_init_result_witness :
  returned
    (mono_droid_runtime_init
       (sample_host 0 (Some sample_domain) (fun _ => true)
          (fun _ => Some sample_assembly) 0)
       sample_config "App" 0
       (mkWorld (Some "/data/app") None None ∅ [] []))
  = Some 0%Z.
Proof.
  apply (runtime_init_result
           (sample_host 0 (Some sample_domain) (fun _ => true)
              (fun _ => Some sample_assembly) 0)
           sample_config "App" 0
           (mkWorld (Some "/data/app") None None ∅ [] [])
           "/data/app" eq_refl).
Defined.

(** C4, as stated, fails twice.  When the engine's own code is -1 the
    shim returns -1 with the domain created and the entry assembly
    loaded.  When the entry assembly's file is there and the engine
    does not open it, the assembly has failed to load and the shim
    returns nothing: the assertion aborts the process. *)
Lemma runtime_init_minus_one_not_exact :
  (exists w',
     mono_droid_runtime_init
       (sample_host (-1) (Some sample_domain) (fun _ => true)
          (fun _ => Some sample_assembly) 0)
       sample_config "App" 0
       (mkWorld (Some "/data/app") None None ∅ [] [])
     = Returned (-1)%Z w'
     /\ g_domain w' = Some sample_domain
     /\ g_assembly w' = Some sample_assembly
     /\ In (Mono_assembly_open "/data/app/App.dll") (calls w'))
  /\ (exists w',
     mono_droid_runtime_init
       (sample_host 0 (Some sample_domain) (fun _ => true)
          (fun _ => None) 0)
       sample_config "App" 0
       (mkWorld (Some "/data/app") None None ∅ [] [])
     = Aborted w'
     /\ In (Mono_assembly_open "/data/app/App.dll") (calls w')).
Proof.
  split; eexists; (split; [vm_compute; reflexivity|]); cbn;
    intuition reflexivity.
Qed.

(** C5: with the bundle path set, when [open] fails on the assembly's
    [.aotdata] path the loader returns null with the out-handle null; it
    returns (no assertion fails, nothing aborts), leaves the three
    globals and the environment as they were, and its only call is that
    [open].  Initialization itself never asks for such a file: with any
    other answers of [open] its outcome is the same. *)
Theorem load_aot_data_missing_file
    (X : Externals) (assembly : MonoAssembly) (size : Z) (w : World)
    (bundle_path : string) :
  g_bundle_path w = Some bundle_path ->
  let path :=
    fst (aot_data_path bundle_path (mono_assembly_get_name X assembly)) in
  (open_rdonly X path < 0)%Z ->
  (exists w',
     load_aot_data X assembly size w = Returned (None, None) w'
     /\ g_bundle_path w' = g_bundle_path w
     /\ g_domain w' = g_domain w
     /\ g_assembly w' = g_assembly w
     /\ environ w' = environ w
     /\ calls w' = calls w ++ [Open_rdonly path])
  /\ (forall (f : string -> Z) (cfg : BuildConfig)
        (files_dir lib : string) (t : Z) (w0 : World),
        Java_net_dot_MonoRunner_initRuntime (with_open_rdonly X f) cfg
          files_dir lib t w0
        = Java_net_dot_MonoRunner_initRuntime X cfg files_dir lib t w0).
Proof.
  intros Hbp path Hopen. split; [|reflexivity].
  destruct w as [bp d a env cs lg]. cbn [g_bundle_path] in Hbp. subst bp.
  pose proof (aot_data_path_res_pos bundle_path
                (mono_assembly_get_name X assembly)) as Hres.
  unfold load_aot_data. shim_run. subst path.
  destruct (aot_data_path bundle_path (mono_assembly_get_name X assembly))
    as [path res].
  cbn [fst snd] in *. rewrite Hres. shim_run.
  apply Z.ltb_lt in Hopen. rewrite Hopen. shim_run.
  eexists. repeat split; reflexivity.
Qed.

(** The sample host opens no [.aotdata] file. *)
Lemma load_aot_data_missing_file_witness :
  exists w',
    load_aot_data
      (sample_host 0 (Some sample_domain) (fun _ => true)
         (fun _ => Some sample_assembly) 0)
      sample_assembly 4096 ready_world
    = Returned (None, None) w'
    /\ g_bundle_path w' = Some "/data/app"
    /\ g_domain w' = Some sample_domain
    /\ g_assembly w' = Some sample_assembly
    /\ environ w' = ∅
    /\ calls w' = [Open_rdonly "/data/app/App.aotdata"].
Proof.
  apply (proj1 (load_aot_data_missing_file
           (sample_host 0 (Some sample_domain) (fun _ => true)
              (fun _ => Some sample_assembly) 0)
           sample_assembly 4096 ready_world "/data/app" eq_refl eq_refl)).
Defined.

(** ** The lifecycle of the three globals *)

(** [setEnv] and [execEntryPoint] write none of the three globals,
    however they end. *)
Lemma setEnv_keeps_globals (key value : string) (w : World) :
  let w' := world_of (Java_net_dot_MonoRunner_setEnv key value w) in
  g_bundle_path w' = g_bundle_path w
  /\ g_domain w' = g_domain w
  /\ g_assembly w' = g_assembly w.
Proof.
  destruct w as [bp d a env cs lg]. unfold Java_net_dot_MonoRunner_setEnv.
  shim_run. destruct (bool_decide (d = None)); shim_run;
    repeat split; reflexivity.
Qed.

Lemma execEntryPoint_keeps_globals
    (X : Externals) (lib : string) (args : list string) (w : World) :
  let w' := world_of (Java_net_dot_MonoRunner_execEntryPoint X lib args w) in
  g_bundle_path w' = g_bundle_path w
  /\ g_domain w' = g_domain w
  /\ g_assembly w' = g_assembly w.
Proof.
  destruct w as [[bp|] [d|] [a|] env cs lg];
    unfold Java_net_dot_MonoRunner_execEntryPoint, mono_droid_execute_assembly;
    shim_run; repeat split; reflexivity.
Qed.

(** The bundle path [initRuntime] stores is the directory it copied. *)
Lemma bundle_path_copy (file_dir : string) :
  strncpy file_dir (strlen file_dir + 1) = file_dir.
Proof. apply truncate_all. lia. Qed.

(** The globals [initRuntime] leaves, by the way it ends. *)
Lemma initRuntime_outcome
    (X : Externals) (cfg : BuildConfig) (files_dir lib : string) (t : Z)
    (w : World) :
  let bundle_path := strncpy_str files_dir 2048 in
  let path := fst (assembly_path bundle_path (strncpy_str lib 2048) None) in
  let rv := monovm_initialize X appctx_keys
              (appctx_values cfg bundle_path (to_int t)) in
  exists env' cs' lg',
    Java_net_dot_MonoRunner_initRuntime X cfg files_dir lib t w
    = if malloc_ok X (strlen bundle_path + 1) then
        match mono_jit_init_version X "dotnet.android" "mobile" with
        | None =>
            Returned (-1)%Z
              (mkWorld (Some bundle_path) None (g_assembly w) env' cs' lg')
        | Some domain =>
            if stat_ok X path then
              match mono_assembly_open X path with
              | Some assembly =>
                  Returned rv
                    (mkWorld (Some bundle_path) (Some domain) (Some assembly)
                       env' cs' lg')
              | None =>
                  Aborted
                    (mkWorld (Some bundle_path) (Some domain) (g_assembly w)
                       env' cs' lg')
              end
            else
              Returned (-1)%Z
                (mkWorld (Some bundle_path) (Some domain) None env' cs' lg')
        end
      else
        Returned (-1)%Z
          (mkWorld (g_bundle_path w) (g_domain w) (g_assembly w) env' cs' lg').
Proof.
  cbv zeta. destruct w as [bp d a env cs lg].
  unfold Java_net_dot_MonoRunner_initRuntime. shim_run.
  destruct (malloc_ok X _); shim_run; [|do 3 eexists; reflexivity].
  rewrite bundle_path_copy.
  apply mono_droid_runtime_init_outcome.
Qed.

(** C6, as amended: in every world the lifecycle reaches, and after
    every entry point that returns from it, the bundle path is non-null
    whenever the domain or the entry assembly is; after a release the
    domain and the entry assembly (and the bundle path) are null; after
    an initialization that returned anything but -1 the domain and the
    entry assembly are both non-null; [setEnv] and [execEntryPoint]
    leave the three as they were.  An initialization that returns -1 is
    promised nothing about the pair. *)
Theorem lifecycle_of_globals
    (cfg : BuildConfig) (X : Externals) (o : lifecycle_op)
    (w : World) (v : option Z) (w' : World) :
  reachable cfg w ->
  run_op X cfg o w = Returned v w' ->
  ((g_domain w' <> None \/ g_assembly w' <> None) -> g_bundle_path w' <> None)
  /\ (o = FreeNativeResources ->
      g_bundle_path w' = None /\ g_domain w' = None /\ g_assembly w' = None)
  /\ (forall files_dir lib t,
        o = InitRuntime files_dir lib t ->
        v <> Some (-1)%Z ->
        g_domain w' <> None /\ g_assembly w' <> None)
  /\ ((exists key value, o = SetEnv key value)
      \/ (exists lib args, o = ExecEntryPoint lib args) ->
      g_bundle_path w' = g_bundle_path w
      /\ g_domain w' = g_domain w
      /\ g_assembly w' = g_assembly w).
Proof.
  intros Hreach Hrun.
  assert (Hinv : forall w0, reachable cfg w0 ->
            (g_domain w0 <> None \/ g_assembly w0 <> None) ->
            g_bundle_path w0 <> None).
  { clear. intros w0 Hreach.
    induction Hreach as [env | X o w v w' Hreach IH Hrun].
    - cbn. intros [H | H]; congruence.
    - destruct o as [key value | files_dir lib t | lib args |];
        cbn [run_op] in Hrun; unfold bind at 1 in Hrun.
      + pose proof (setEnv_keeps_globals key value w) as (Hb & Hd & Ha).
        destruct (Java_net_dot_MonoRunner_setEnv key value w);
          [|discriminate Hrun].
        injection Hrun as _ <-. cbn [world_of] in *.
        rewrite Hb, Hd, Ha. exact IH.
      + destruct (initRuntime_outcome X cfg files_dir lib t w)
          as (env' & cs' & lg' & E).
        rewrite E in Hrun.
        destruct (malloc_ok X _);
          [destruct (mono_jit_init_version X _ _);
           [destruct (stat_ok X _); [destruct (mono_assembly_open X _)|]|]|];
          try discriminate Hrun; injection Hrun as _ <-; cbn;
          try (intros _; congruence).
        exact IH.
      + pose proof (execEntryPoint_keeps_globals X lib args w) as (Hb & Hd & Ha).
        destruct (Java_net_dot_MonoRunner_execEntryPoint X lib args w);
          [|discriminate Hrun].
        injection Hrun as _ <-. cbn [world_of] in *.
        rewrite Hb, Hd, Ha. exact IH.
      + unfold Java_net_dot_MonoRunner_freeNativeResources in Hrun.
        unfold bind at 1, LOG_INFO, android_log_print in Hrun.
        rewrite free_resources_run in Hrun.
        injection Hrun as _ <-. cbn. intros [H | H]; congruence. }
  split; [apply Hinv; exact (reachable_step cfg X o w v w' Hreach Hrun)|].
  split; [|split].
  - intros ->. cbn [run_op] in Hrun. unfold bind at 1 in Hrun.
    unfold Java_net_dot_MonoRunner_freeNativeResources in Hrun.
    unfold bind at 1, LOG_INFO, android_log_print in Hrun.
    rewrite free_resources_run in Hrun.
    injection Hrun as _ <-. cbn. auto.
  - intros files_dir lib t -> Hv. cbn [run_op] in Hrun.
    unfold bind at 1 in Hrun.
    destruct (initRuntime_outcome X cfg files_dir lib t w)
      as (env' & cs' & lg' & E).
    rewrite E in Hrun.
    destruct (malloc_ok X _);
      [destruct (mono_jit_init_version X _ _);
       [destruct (stat_ok X _); [destruct (mono_assembly_open X _)|]|]|];
      try discriminate Hrun; injection Hrun as <- <-;
      try congruence.
    cbn. split; congruence.
  - intros [(key & value & ->) | (lib & args & ->)];
      cbn [run_op] in Hrun; unfold bind at 1 in Hrun.
    + pose proof (setEnv_keeps_globals key value w) as Hkeep.
      destruct (Java_net_dot_MonoRunner_setEnv key value w);
        [|discriminate Hrun].
      injection Hrun as _ <-. exact Hkeep.
    + pose proof (execEntryPoint_keeps_globals X lib args w) as Hkeep.
      destruct (Java_net_dot_MonoRunner_execEntryPoint X lib args w);
        [|discriminate Hrun].
      injection Hrun as _ <-. exact Hkeep.
Qed.

(** A first initialization in a fresh process, on an engine that creates
    the domain and opens the entry assembly: it returns the engine's 0,
    and both handles are set. *)
Lemma lifecycle_of_globals_witness :
  g_domain
    (world_of
       (run_op
          (sample_host 0 (Some sample_domain) (fun _ => true)
             (fun _ => Some sample_assembly) 0)
          sample_config (InitRuntime "/data/app" "App" 0) (initial_world ∅)))
    <> None
  /\ g_assembly
    (world_of
       (run_op
          (sample_host 0 (Some sample_domain) (fun _ => true)
             (fun _ => Some sample_assembly) 0)
          sample_config (InitRuntime "/data/app" "App" 0) (initial_world ∅)))
    <> None.
Proof.
  assert (Hrun :
    run_op
      (sample_host 0 (Some sample_domain) (fun _ => true)
         (fun _ => Some sample_assembly) 0)
      sample_config (InitRuntime "/data/app" "App" 0) (initial_world ∅)
    = Returned (Some 0%Z)
        (world_of
           (run_op
              (sample_host 0 (Some sample_domain) (fun _ => true)
                 (fun _ => Some sample_assembly) 0)
              sample_config (InitRuntime "/data/app" "App" 0)
              (initial_world ∅)))).
  { vm_compute. reflexivity. }
  apply (proj1 (proj2 (proj2 (lifecycle_of_globals sample_config _ _ _ _ _
                                (reachable_start sample_config ∅) Hrun)))
           "/data/app" "App" 0%Z eq_refl).
  discriminate.
Defined.

(** C6, as stated, fails: in a fresh process, when the engine creates
    the domain and the entry assembly's file is not under the bundle
    path, [initRuntime] returns -1 and leaves the domain non-null and
    the entry assembly null; nothing rolls the domain back. *)
Lemma init_leaves_domain_without_assembly :
  exists w',
    run_op
      (sample_host 0 (Some sample_domain) (fun _ => false) (fun _ => None) 0)
      sample_config (InitRuntime "/data/app" "App" 0) (initial_world ∅)
    = Returned (Some (-1)%Z) w'
    /\ g_bundle_path w' = Some "/data/app"
    /\ g_domain w' = Some sample_domain
    /\ g_assembly w' = None
    /\ ~ (g_domain w' = None /\ g_assembly w' = None)
    /\ ~ (g_domain w' <> None /\ g_assembly w' <> None).
Proof.
  eexists. split; [vm_compute; reflexivity|]. cbn.
  repeat split; try reflexivity; intros [H1 H2]; congruence.
Qed.

(** * Further properties of the shim *)

(** ** The calls of an initialization *)

(** The buffer [file_path] is sized for its contents. *)
Lemma runtimeconfig_path_fits (bundle_path : string) :
  truncate
    (strlen bundle_path + strlen RUNTIMECONFIG_BIN_FILE + 1 + 1 - 1)
    (bundle_path +:+ "/" +:+ RUNTIMECONFIG_BIN_FILE)
  = runtimeconfig_path bundle_path.
Proof.
  unfold runtimeconfig_path. apply truncate_all.
  unfold strlen. rewrite !length_append. simpl. lia.
Qed.

(** [mono_droid_runtime_init] up to the test of the domain, with the
    calls it has made and the environment it leaves. *)
Lemma mono_droid_runtime_init_trace
    (X : Externals) (cfg : BuildConfig) (executable : string) (offset : Z)
    (bundle_path : string) (d : option MonoDomain) (a : option MonoAssembly)
    (env : gmap string string) (cs : list call) (lg : list log_record) :
  exists lg',
    mono_droid_runtime_init X cfg executable offset
      (mkWorld (Some bundle_path) d a env cs lg)
    = match mono_jit_init_version X "dotnet.android" "mobile" with
      | None =>
          (LOG_ERROR "mono_jit_init_version failed" [] ;; ret (-1)%Z)
            (mkWorld (Some bundle_path) None a (diagnostic_environ cfg env)
               (cs ++ domain_setup_calls X cfg bundle_path offset) lg')
      | Some domain =>
          (let* assembly := mono_droid_load_assembly X executable None in
           store_g_assembly assembly ;;
           match assembly with
           | None =>
               LOG_ERROR "mono_droid_load_assembly failed" [] ;;
               ret (-1)%Z
           | Some _ =>
               ret (monovm_initialize X appctx_keys
                      (appctx_values cfg bundle_path offset))
           end)
            (mkWorld (Some bundle_path) (Some domain) a
               (diagnostic_environ cfg env)
               (cs ++ domain_setup_calls X cfg bundle_path offset) lg')
      end.
Proof.
  unfold mono_droid_runtime_init, domain_setup_calls, aot_mode_calls,
    diagnostic_environ.
  shim_run. unfold snprintf. shim_run.
  pose proof (runtimeconfig_path_assert bundle_path) as Hassert.
  cbv zeta in Hassert.
  destruct (mono_jit_init_version X "dotnet.android" "mobile") as [domain|];
    destruct (DIAGNOSTIC_PORTS cfg) as [ports|]; shim_run;
    try destruct (env !! "DOTNET_DiagnosticPorts"); shim_run;
    rewrite Hassert, runtimeconfig_path_fits; shim_run;
    destruct (stat_ok X (runtimeconfig_path bundle_path)); shim_run;
    destruct (FORCE_INTERPRETER cfg), (FORCE_AOT cfg), (STATIC_AOT cfg),
      (FULL_AOT cfg); shim_run;
    rewrite <- ?(@List.app_assoc call); cbn [app];
    eexists; reflexivity.
Qed.

(** The calls, the environment and the bundle path after
    [mono_droid_runtime_init], however it ends. *)
Lemma mono_droid_runtime_init_effects
    (X : Externals) (cfg : BuildConfig) (executable : string) (offset : Z)
    (bundle_path : string) (d : option MonoDomain) (a : option MonoAssembly)
    (env : gmap string string) (cs : list call) (lg : list log_record) :
  let w' :=
    world_of (mono_droid_runtime_init X cfg executable offset
                (mkWorld (Some bundle_path) d a env cs lg)) in
  calls w' = cs ++ domain_setup_calls X cfg bundle_path offset
                ++ entry_assembly_calls X bundle_path executable
  /\ environ w' = diagnostic_environ cfg env
  /\ g_bundle_path w' = Some bundle_path.
Proof.
  cbv zeta.
  destruct (mono_droid_runtime_init_trace X cfg executable offset
              bundle_path d a env cs lg) as (lg1 & ->).
  unfold entry_assembly_calls.
  destruct (mono_jit_init_version X "dotnet.android" "mobile") as [domain|].
  - shim_run.
    rewrite (mono_droid_load_assembly_run X executable None
               (mkWorld (Some bundle_path) (Some domain) a
                  (diagnostic_environ cfg env)
                  (cs ++ domain_setup_calls X cfg bundle_path offset) lg1)
               bundle_path eq_refl).
    cbv zeta.
    destruct (stat_ok X _); [destruct (mono_assembly_open X _)|];
      shim_run; rewrite <- ?(@List.app_assoc call); cbn [app];
      repeat split; reflexivity.
  - shim_run. rewrite app_nil_r. repeat split; reflexivity.
Qed.

Lemma truncate_truncate (n m : nat) (s : string) :
  truncate n (truncate m s) = truncate (Nat.min n m) s.
Proof.
  revert n m. induction s as [|c s IH]; intros [|n] [|m]; simpl;
    try reflexivity.
  f_equal. apply IH.
Qed.

(** The copy into a 2048-byte buffer keeps the first 2047 characters. *)
Lemma strncpy_str_2048 (s : string) : strncpy_str s 2048 = truncate 2047 s.
Proof.
  unfold strncpy_str, strncpy. rewrite truncate_truncate.
  replace (Nat.min (2048 - 1) 2048) with 2047 by lia. reflexivity.
Qed.

(** The same for [initRuntime], once the bundle path is allocated. *)
Lemma initRuntime_effects
    (X : Externals) (cfg : BuildConfig) (files_dir lib : string) (t : Z)
    (w : World) :
  let bundle_path := strncpy_str files_dir 2048 in
  malloc_ok X (strlen bundle_path + 1) = true ->
  let w' :=
    world_of (Java_net_dot_MonoRunner_initRuntime X cfg files_dir lib t w) in
  calls w' = calls w ++ domain_setup_calls X cfg bundle_path (to_int t)
                     ++ entry_assembly_calls X bundle_path
                          (strncpy_str lib 2048)
  /\ environ w' = diagnostic_environ cfg (environ w)
  /\ g_bundle_path w' = Some bundle_path.
Proof.
  intros bundle_path Hmalloc. destruct w as [bp d a env cs lg].
  unfold Java_net_dot_MonoRunner_initRuntime. shim_run.
  fold bundle_path. rewrite Hmalloc. shim_run. rewrite bundle_path_copy.
  apply mono_droid_runtime_init_effects.
Qed.

(** X1: once the bundle path is allocated, the calls [initRuntime]
    makes to the engine, to the file system, to [setenv] and to [free]
    are these and no other, in this order, however it ends: in a build
    that defines [DIAGNOSTIC_PORTS], [setenv] of [DOTNET_DiagnosticPorts]
    to it; [chdir] to the bundle path; [stat] on its
    [runtimeconfig.bin], which is handed to the engine when it is there
    and freed when it is not; [monovm_initialize] on the three
    properties; the debug initialization, the four hooks and the two
    chaining switches; the AOT mode of the build; [mono_jit_init_version];
    and, when a domain came back, [stat] on the entry assembly's path
    and [mono_assembly_open] when the file is there.  So it never runs
    the program and frees nothing but the unused configuration path.
    (Allocations, string formatting and log lines are not calls of the
    trace.) *)
Theorem initRuntime_calls
    (X : Externals) (cfg : BuildConfig) (files_dir lib : string) (t : Z)
    (w : World) :
  let bundle_path := strncpy_str files_dir 2048 in
  let executable := strncpy_str lib 2048 in
  let rc := bundle_path +:+ "/runtimeconfig.bin" in
  let path := fst (assembly_path bundle_path executable None) in
  malloc_ok X (strlen bundle_path + 1) = true ->
  calls (world_of (Java_net_dot_MonoRunner_initRuntime X cfg files_dir lib t w))
  = calls w
    ++ match DIAGNOSTIC_PORTS cfg with
       | Some ports => [Setenv "DOTNET_DiagnosticPorts" ports true]
       | None => []
       end
    ++ [Chdir (Some bundle_path);
        Stat rc;
        if stat_ok X rc then Monovm_runtimeconfig_initialize rc
        else Free_string rc;
        Monovm_initialize
          ["RUNTIME_IDENTIFIER"; "APP_CONTEXT_BASE_DIRECTORY";
           "System.TimeZoneInfo.LocalDateTimeOffset"]
          [ANDROID_RUNTIME_IDENTIFIER (target cfg); bundle_path;
           fst (snprintf 32 (format_d (to_int t)))];
        Mono_debug_init;
        Mono_install_assembly_preload_hook;
        Mono_install_load_aot_data_hook;
        Mono_install_unhandled_exception_hook;
        Mono_trace_set_log_handler;
        Mono_set_signal_chaining true;
        Mono_set_crash_chaining true]
    ++ aot_mode_calls cfg
    ++ [Mono_jit_init_version "dotnet.android" "mobile"]
    ++ match mono_jit_init_version X "dotnet.android" "mobile" with
       | None => []
       | Some _ =>
           Stat path
           :: (if stat_ok X path then [Mono_assembly_open path] else [])
       end.
Proof.
  intros bundle_path executable rc path Hmalloc.
  destruct (initRuntime_effects X cfg files_dir lib t w Hmalloc)
    as (Hcalls & _ & _).
  rewrite Hcalls. f_equal.
  unfold domain_setup_calls. rewrite <- !(@List.app_assoc call). reflexivity.
Qed.

(** A fresh process under [/data/app], in a build that defines
    [DIAGNOSTIC_PORTS], with no configuration file and the entry
    assembly in place. *)
Lemma initRuntime_calls_witness :
  calls
    (world_of
       (Java_net_dot_MonoRunner_initRuntime
          (sample_host 0 (Some sample_domain)
             (fun p => String.eqb p "/data/app/App.dll")
             (fun _ => Some sample_assembly) 0)
          {| target := aarch64; DIAGNOSTIC_PORTS := Some "127.0.0.1:9000";
             FORCE_INTERPRETER := false; FORCE_AOT := false;
             STATIC_AOT := false; FULL_AOT := false |}
          "/data/app" "App" 3600 (initial_world ∅)))
  = [Setenv "DOTNET_DiagnosticPorts" "127.0.0.1:9000" true;
     Chdir (Some "/data/app");
     Stat "/data/app/runtimeconfig.bin";
     Free_string "/data/app/runtimeconfig.bin";
     Monovm_initialize
       ["RUNTIME_IDENTIFIER"; "APP_CONTEXT_BASE_DIRECTORY";
        "System.TimeZoneInfo.LocalDateTimeOffset"]
       ["android-arm64"; "/data/app"; "3600"];
     Mono_debug_init;
     Mono_install_assembly_preload_hook;
     Mono_install_load_aot_data_hook;
     Mono_install_unhandled_exception_hook;
     Mono_trace_set_log_handler;
     Mono_set_signal_chaining true;
     Mono_set_crash_chaining true;
     Mono_jit_init_version "dotnet.android" "mobile";
     Stat "/data/app/App.dll";
     Mono_assembly_open "/data/app/App.dll"].
Proof.
  apply (initRuntime_calls
           (sample_host 0 (Some sample_domain)
              (fun p => String.eqb p "/data/app/App.dll")
              (fun _ => Some sample_assembly) 0)
           {| target := aarch64; DIAGNOSTIC_PORTS := Some "127.0.0.1:9000";
              FORCE_INTERPRETER := false; FORCE_AOT := false;
              STATIC_AOT := false; FULL_AOT := false |}
           "/data/app" "App" 3600 (initial_world ∅)).
  reflexivity.
Defined.

(** ** The build's execution mode *)

(** Outside the mode block no call sets the mode or registers modules. *)
Lemma mode_calls_of_init
    (X : Externals) (cfg : BuildConfig) (bundle_path executable : string)
    (offset : Z) (c : call) :
  (exists m, c = Mono_jit_set_aot_mode m) \/ c = Register_aot_modules ->
  In c (domain_setup_calls X cfg bundle_path offset
        ++ entry_assembly_calls X bundle_path executable)
  <-> In c (aot_mode_calls cfg).
Proof.
  intros Hc. unfold domain_setup_calls, entry_assembly_calls.
  rewrite !in_app_iff.
  destruct Hc as [[mode ->] | ->];
    destruct (DIAGNOSTIC_PORTS cfg),
      (stat_ok X (runtimeconfig_path bundle_path)),
      (mono_jit_init_version X "dotnet.android" "mobile"),
      (stat_ok X (fst (assembly_path bundle_path executable None)));
    cbn [In]; intuition discriminate.
Qed.

(** X2: the execution mode an initialization sets is the build's
    choice and no other: interpreter-only when [FORCE_INTERPRETER] is
    set, whatever [FORCE_AOT] says; otherwise, under [FORCE_AOT], full
    or normal AOT by [FULL_AOT]; otherwise no mode is set at all.
    The statically linked AOT modules are registered exactly under
    [FORCE_AOT] with [STATIC_AOT] and without [FORCE_INTERPRETER]. *)
Theorem initRuntime_aot_mode
    (X : Externals) (cfg : BuildConfig) (files_dir lib : string) (t : Z)
    (w : World) :
  malloc_ok X (strlen (strncpy_str files_dir 2048) + 1) = true ->
  let made :=
    drop (length (calls w))
      (calls (world_of
         (Java_net_dot_MonoRunner_initRuntime X cfg files_dir lib t w))) in
  (forall m,
     In (Mono_jit_set_aot_mode m) made <->
     (FORCE_INTERPRETER cfg = true /\ m = MONO_AOT_MODE_INTERP_ONLY)
     \/ (FORCE_INTERPRETER cfg = false /\ FORCE_AOT cfg = true
         /\ m = if FULL_AOT cfg then MONO_AOT_MODE_FULL
                else MONO_AOT_MODE_NORMAL))
  /\ (In Register_aot_modules made <->
      FORCE_INTERPRETER cfg = false /\ FORCE_AOT cfg = true
      /\ STATIC_AOT cfg = true).
Proof.
  intros Hmalloc made. subst made.
  destruct (initRuntime_effects X cfg files_dir lib t w Hmalloc)
    as (-> & _ & _).
  rewrite drop_app_length. split; [intros m|];
    rewrite mode_calls_of_init by eauto;
    unfold aot_mode_calls;
    destruct (FORCE_INTERPRETER cfg), (FORCE_AOT cfg), (STATIC_AOT cfg),
      (FULL_AOT cfg); cbn [In app];
    intuition (try discriminate; try congruence).
Qed.

(** A build with [FORCE_INTERPRETER] and [FORCE_AOT] both set runs the
    interpreter. *)
Lemma initRuntime_aot_mode_witness :
  In (Mono_jit_set_aot_mode MONO_AOT_MODE_INTERP_ONLY)
    (drop (length (calls (initial_world ∅)))
       (calls (world_of
          (Java_net_dot_MonoRunner_initRuntime
             (sample_host 0 (Some sample_domain) (fun _ => true)
                (fun _ => Some sample_assembly) 0)
             {| target := arm; DIAGNOSTIC_PORTS := None;
                FORCE_INTERPRETER := true; FORCE_AOT := true;
                STATIC_AOT := true; FULL_AOT := true |}
             "/data/app" "App" 0 (initial_world ∅))))).
Proof.
  apply (proj1 (initRuntime_aot_mode
                  (sample_host 0 (Some sample_domain) (fun _ => true)
                     (fun _ => Some sample_assembly) 0)
                  {| target := arm; DIAGNOSTIC_PORTS := None;
                     FORCE_INTERPRETER := true; FORCE_AOT := true;
                     STATIC_AOT := true; FULL_AOT := true |}
                  "/data/app" "App" 0 (initial_world ∅) eq_refl)).
  left. split; reflexivity.
Defined.

(** ** The environment across initialization *)

(** [setEnv] in a world without domain. *)
Lemma setEnv_run (key value : string) (w : World) :
  g_domain w = None ->
  exists lg',
    Java_net_dot_MonoRunner_setEnv key value w
    = Returned tt
        (mkWorld (g_bundle_path w) None (g_assembly w)
           (if valid_env_name key then <[key := value]> (environ w)
            else environ w)
           (calls w ++ [Setenv key value true]) lg').
Proof.
  destruct w as [bp d a env cs lg]. cbn [g_domain]. intros ->.
  unfold Java_net_dot_MonoRunner_setEnv. shim_run.
  rewrite (bool_decide_eq_true_2 _ eq_refl). shim_run.
  destruct (valid_env_name key), (env !! key); eexists; reflexivity.
Qed.

(** X3: a variable the host sets before initialization, under a name
    that [setenv] takes, is still there after it, with one exception: a
    build that defines [DIAGNOSTIC_PORTS] binds [DOTNET_DiagnosticPorts]
    to its own value during initialization, over whatever the host had
    set. *)
Theorem initRuntime_keeps_host_environment
    (X : Externals) (cfg : BuildConfig) (key value files_dir lib : string)
    (t : Z) (w : World) :
  g_domain w = None ->
  valid_env_name key = true ->
  malloc_ok X (strlen (strncpy_str files_dir 2048) + 1) = true ->
  let w1 := world_of (Java_net_dot_MonoRunner_setEnv key value w) in
  let w2 :=
    world_of (Java_net_dot_MonoRunner_initRuntime X cfg files_dir lib t w1) in
  match DIAGNOSTIC_PORTS cfg with
  | None => environ w2 = <[key := value]> (environ w)
  | Some ports =>
      environ w2 !! "DOTNET_DiagnosticPorts" = Some ports
      /\ (key <> "DOTNET_DiagnosticPorts" -> environ w2 !! key = Some value)
  end.
Proof.
  intros Hd Hvalid Hmalloc w1 w2. subst w1 w2.
  destruct (setEnv_run key value w Hd) as (lg' & ->). cbn [world_of].
  rewrite Hvalid.
  destruct (initRuntime_effects X cfg files_dir lib t
              (mkWorld (g_bundle_path w) None (g_assembly w)
                 (<[key := value]> (environ w))
                 (calls w ++ [Setenv key value true]) lg') Hmalloc)
    as (_ & -> & _).
  unfold diagnostic_environ. cbn [environ].
  destruct (DIAGNOSTIC_PORTS cfg) as [ports|]; [|reflexivity].
  split.
  - apply lookup_insert_eq.
  - intros Hne. rewrite lookup_insert_ne by congruence.
    apply lookup_insert_eq.
Qed.

(** The host asks for one diagnostic port, the build defines another. *)
Lemma initRuntime_keeps_host_environment_witness :
  environ
    (world_of
       (Java_net_dot_MonoRunner_initRuntime
          (sample_host 0 (Some sample_domain) (fun _ => true)
             (fun _ => Some sample_assembly) 0)
          {| target := aarch64; DIAGNOSTIC_PORTS := Some "127.0.0.1:9000";
             FORCE_INTERPRETER := false; FORCE_AOT := false;
             STATIC_AOT := false; FULL_AOT := false |}
          "/data/app" "App" 0
          (world_of
             (Java_net_dot_MonoRunner_setEnv "DOTNET_DiagnosticPorts"
                "10.0.2.2:9001" (initial_world ∅)))))
    !! "DOTNET_DiagnosticPorts"
  = Some "127.0.0.1:9000".
Proof.
  apply (initRuntime_keeps_host_environment
           (sample_host 0 (Some sample_domain) (fun _ => true)
              (fun _ => Some sample_assembly) 0)
           {| target := aarch64; DIAGNOSTIC_PORTS := Some "127.0.0.1:9000";
              FORCE_INTERPRETER := false; FORCE_AOT := false;
              STATIC_AOT := false; FULL_AOT := false |}
           "DOTNET_DiagnosticPorts" "10.0.2.2:9001" "/data/app" "App" 0
           (initial_world ∅) eq_refl eq_refl eq_refl).
Defined.

(** ** The bundle path *)

(** X4: the bundle path [initRuntime] stores is the first 2047
    characters of the directory it is given: the directory itself when
    it is that short, and a cut path, silently, when it is longer. *)
Theorem initRuntime_bundle_path
    (X : Externals) (cfg : BuildConfig) (files_dir lib : string) (t : Z)
    (w : World) :
  malloc_ok X (strlen (strncpy_str files_dir 2048) + 1) = true ->
  let w' :=
    world_of (Java_net_dot_MonoRunner_initRuntime X cfg files_dir lib t w) in
  g_bundle_path w' = Some (truncate 2047 files_dir)
  /\ strlen (truncate 2047 files_dir) <= 2047
  /\ (strlen files_dir <= 2047 -> g_bundle_path w' = Some files_dir).
Proof.
  intros Hmalloc w'. subst w'.
  destruct (initRuntime_effects X cfg files_dir lib t w Hmalloc)
    as (_ & _ & ->).
  rewrite strncpy_str_2048. split; [reflexivity|]. split.
  - unfold strlen. rewrite length_truncate. lia.
  - intros Hlen. now rewrite truncate_all.
Qed.

(** A directory of 2100 characters is cut to 2047. *)
Lemma initRuntime_bundle_path_witness :
  g_bundle_path
    (world_of
       (Java_net_dot_MonoRunner_initRuntime
          (sample_host 0 (Some sample_domain) (fun _ => true)
             (fun _ => Some sample_assembly) 0)
          sample_config ("/" +:+ replicate_char 2099 "d") "App" 0
          (initial_world ∅)))
  = Some ("/" +:+ replicate_char 2046 "d").
Proof.
  assert (Hcut : truncate 2047 ("/" +:+ replicate_char 2099 "d")
                 = "/" +:+ replicate_char 2046 "d")
    by (vm_compute; reflexivity).
  rewrite <- Hcut.
  apply (initRuntime_bundle_path
           (sample_host 0 (Some sample_domain) (fun _ => true)
              (fun _ => Some sample_assembly) 0)
           sample_config ("/" +:+ replicate_char 2099 "d") "App" 0
           (initial_world ∅)).
  reflexivity.
Defined.

(** X5: when the bundle path cannot be allocated, [initRuntime] returns
    -1 having called nothing and changed nothing: the globals, a bundle
    path stored by an earlier initialization included, and the
    environment are as they were. *)
Theorem initRuntime_allocation_failure
    (X : Externals) (cfg : BuildConfig) (files_dir lib : string) (t : Z)
    (w : World) :
  malloc_ok X (strlen (strncpy_str files_dir 2048) + 1) = false ->
  exists w',
    Java_net_dot_MonoRunner_initRuntime X cfg files_dir lib t w
      = Returned (-1)%Z w'
    /\ calls w' = calls w
    /\ environ w' = environ w
    /\ g_bundle_path w' = g_bundle_path w
    /\ g_domain w' = g_domain w
    /\ g_assembly w' = g_assembly w.
Proof.
  intros Hmalloc. destruct w as [bp d a env cs lg].
  unfold Java_net_dot_MonoRunner_initRuntime. shim_run. rewrite Hmalloc.
  shim_run. eexists. repeat split; reflexivity.
Qed.

Lemma initRuntime_allocation_failure_witness :
  exists w',
    Java_net_dot_MonoRunner_initRuntime
      {| stat_ok := fun _ => true;
         open_rdonly := fun _ => 3%Z;
         mmap_private := fun _ _ => None;
         malloc_ok := fun _ => false;
         monovm_initialize := fun _ _ => 0%Z;
         mono_jit_init_version := fun _ _ => Some sample_domain;
         mono_assembly_open := fun _ => Some sample_assembly;
         mono_assembly_get_name := fun _ => "App";
         mono_jit_exec := fun _ _ _ _ => 0%Z |}
      sample_config "/data/app" "App" 0 ready_world
      = Returned (-1)%Z w'
    /\ calls w' = []
    /\ environ w' = ∅
    /\ g_bundle_path w' = Some "/data/app"
    /\ g_domain w' = Some sample_domain
    /\ g_assembly w' = Some sample_assembly.
Proof.
  apply (initRuntime_allocation_failure _ sample_config "/data/app" "App" 0
           ready_world).
  reflexivity.
Defined.

(** ** Initialization and what follows it *)

(** [execEntryPoint] in a world that holds all three. *)
Lemma execEntryPoint_run
    (X : Externals) (lib : string) (args : list string)
    (bundle_path : string) (d : MonoDomain) (a : MonoAssembly)
    (env : gmap string string) (cs : list call) (lg : list log_record) :
  let argc := Z.of_nat (length args + 1) in
  let argv := Some <$> (bundle_path :: args) in
  exists lg',
    Java_net_dot_MonoRunner_execEntryPoint X lib args
      (mkWorld (Some bundle_path) (Some d) (Some a) env cs lg)
    = Returned (mono_jit_exec X d a argc argv)
        (mkWorld (Some bundle_path) (Some d) (Some a) env
           (cs ++ [Mono_jit_exec d a argc argv; Mono_jit_cleanup d;
                   Free_argv argv]) lg').
Proof.
  cbv zeta.
  unfold Java_net_dot_MonoRunner_execEntryPoint, mono_droid_execute_assembly.
  shim_run. rewrite managed_argv_filled.
  rewrite <- !(@List.app_assoc call). cbn [app].
  eexists. reflexivity.
Qed.

(** X6: in a bundle directory whose entry assembly is found and opened,
    on an engine that creates the domain, [initRuntime] returns the
    engine's initialization code, and [execEntryPoint] after it runs
    the assembly that was opened, in the domain that was created, on
    the bundle path and the arguments, and returns the program's exit
    code. *)
Theorem initRuntime_then_execEntryPoint
    (X X' : Externals) (cfg : BuildConfig) (files_dir lib lib' : string)
    (t : Z) (args : list string) (w : World)
    (d : MonoDomain) (a : MonoAssembly) :
  let bundle_path := strncpy_str files_dir 2048 in
  let path := fst (assembly_path bundle_path (strncpy_str lib 2048) None) in
  let argc := Z.of_nat (length args + 1) in
  let argv := Some <$> (bundle_path :: args) in
  malloc_ok X (strlen bundle_path + 1) = true ->
  mono_jit_init_version X "dotnet.android" "mobile" = Some d ->
  stat_ok X path = true ->
  mono_assembly_open X path = Some a ->
  exists w1 w2,
    Java_net_dot_MonoRunner_initRuntime X cfg files_dir lib t w
      = Returned
          (monovm_initialize X appctx_keys
             (appctx_values cfg bundle_path (to_int t))) w1
    /\ Java_net_dot_MonoRunner_execEntryPoint X' lib' args w1
      = Returned (mono_jit_exec X' d a argc argv) w2
    /\ calls w2 = calls w1 ++ [Mono_jit_exec d a argc argv;
                               Mono_jit_cleanup d; Free_argv argv].
Proof.
  intros bundle_path path argc argv Hmalloc Hd Hstat Ha.
  destruct (initRuntime_outcome X cfg files_dir lib t w)
    as (env' & cs' & lg' & ->).
  fold bundle_path. fold path. rewrite Hmalloc, Hd, Hstat, Ha.
  destruct (execEntryPoint_run X' lib' args bundle_path d a env' cs' lg')
    as (lg2 & E).
  do 2 eexists. split; [reflexivity|]. split; [exact E|]. reflexivity.
Qed.

Lemma initRuntime_then_execEntryPoint_witness :
  exists w1 w2,
    Java_net_dot_MonoRunner_initRuntime
      (sample_host 0 (Some sample_domain) (fun _ => true)
         (fun _ => Some sample_assembly) 0)
      sample_config "/data/app" "App" 0 (initial_world ∅)
      = Returned 0%Z w1
    /\ Java_net_dot_MonoRunner_execEntryPoint
         (sample_host 0 None (fun _ => false) (fun _ => None) 42)
         "App" ["--run"] w1
      = Returned 42%Z w2
    /\ calls w2 =
         calls w1
         ++ [Mono_jit_exec sample_domain sample_assembly 2
               [Some "/data/app"; Some "--run"];
             Mono_jit_cleanup sample_domain;
             Free_argv [Some "/data/app"; Some "--run"]].
Proof.
  apply (initRuntime_then_execEntryPoint
           (sample_host 0 (Some sample_domain) (fun _ => true)
              (fun _ => Some sample_assembly) 0)
           (sample_host 0 None (fun _ => false) (fun _ => None) 42)
           sample_config "/data/app" "App" "App" 0 ["--run"]
           (initial_world ∅) sample_domain sample_assembly);
    reflexivity.
Defined.

(** X7: an initialization that gets no domain, or does not find the
    entry assembly's file, returns -1, and [execEntryPoint] after it is
    turned away with -1 and calls nothing, whatever state the shim was
    in before: the failed initialization has left the domain or the
    entry assembly null. *)
Theorem failed_initRuntime_rejects_execEntryPoint
    (X X' : Externals) (cfg : BuildConfig) (files_dir lib lib' : string)
    (t : Z) (args : list string) (w : World) :
  let bundle_path := strncpy_str files_dir 2048 in
  let path := fst (assembly_path bundle_path (strncpy_str lib 2048) None) in
  malloc_ok X (strlen bundle_path + 1) = true ->
  mono_jit_init_version X "dotnet.android" "mobile" = None
  \/ stat_ok X path = false ->
  exists w1 w2,
    Java_net_dot_MonoRunner_initRuntime X cfg files_dir lib t w
      = Returned (-1)%Z w1
    /\ (g_domain w1 = None \/ g_assembly w1 = None)
    /\ Java_net_dot_MonoRunner_execEntryPoint X' lib' args w1
      = Returned (-1)%Z w2
    /\ calls w2 = calls w1.
Proof.
  intros bundle_path path Hmalloc Hfail.
  destruct (initRuntime_outcome X cfg files_dir lib t w)
    as (env' & cs' & lg' & ->).
  fold bundle_path. fold path. rewrite Hmalloc.
  destruct (mono_jit_init_version X "dotnet.android" "mobile") as [d|].
  - destruct Hfail as [Hfail | Hfail]; [discriminate Hfail|].
    rewrite Hfail. do 2 eexists. split; [reflexivity|].
    split; [right; reflexivity|].
    unfold Java_net_dot_MonoRunner_execEntryPoint. shim_run.
    split; reflexivity.
  - do 2 eexists. split; [reflexivity|]. split; [left; reflexivity|].
    unfold Java_net_dot_MonoRunner_execEntryPoint. shim_run.
    destruct (g_assembly w); split; reflexivity.
Qed.

Lemma failed_initRuntime_rejects_execEntryPoint_witness :
  exists w1 w2,
    Java_net_dot_MonoRunner_initRuntime
      (sample_host 0 (Some sample_domain) (fun _ => false) (fun _ => None) 0)
      sample_config "/data/app" "App" 0 ready_world
      = Returned (-1)%Z w1
    /\ (g_domain w1 = None \/ g_assembly w1 = None)
    /\ Java_net_dot_MonoRunner_execEntryPoint
         (sample_host 0 None (fun _ => false) (fun _ => None) 42)
         "App" [] w1
      = Returned (-1)%Z w2
    /\ calls w2 = calls w1.
Proof.
  apply (failed_initRuntime_rejects_execEntryPoint
           (sample_host 0 (Some sample_domain) (fun _ => false)
              (fun _ => None) 0)
           (sample_host 0 None (fun _ => false) (fun _ => None) 42)
           sample_config "/data/app" "App" "App" 0 [] ready_world).
  - reflexivity.
  - right. reflexivity.
Defined.

(** X8: [execEntryPoint] does not guard against a second run.  It
    leaves the three globals as they were, so a second call passes the
    same checks and hands the engine the domain that the first call has
    already cleaned up with [mono_jit_cleanup]. *)
Theorem execEntryPoint_twice
    (X X' : Externals) (lib lib' : string) (args args' : list string)
    (w : World) (bundle_path : string) (d : MonoDomain) (a : MonoAssembly) :
  g_bundle_path w = Some bundle_path ->
  g_domain w = Some d ->
  g_assembly w = Some a ->
  let argv := Some <$> (bundle_path :: args) in
  let argv' := Some <$> (bundle_path :: args') in
  let argc := Z.of_nat (length args + 1) in
  let argc' := Z.of_nat (length args' + 1) in
  exists w1 w2,
    Java_net_dot_MonoRunner_execEntryPoint X lib args w
      = Returned (mono_jit_exec X d a argc argv) w1
    /\ Java_net_dot_MonoRunner_execEntryPoint X' lib' args' w1
      = Returned (mono_jit_exec X' d a argc' argv') w2
    /\ calls w2 =
         calls w
         ++ [Mono_jit_exec d a argc argv; Mono_jit_cleanup d; Free_argv argv;
             Mono_jit_exec d a argc' argv'; Mono_jit_cleanup d;
             Free_argv argv'].
Proof.
  intros Hbp Hd Ha argv argv' argc argc'. destruct w as [bp d0 a0 env cs lg].
  cbn [g_bundle_path g_domain g_assembly calls] in *. subst bp d0 a0.
  destruct (execEntryPoint_run X lib args bundle_path d a env cs lg)
    as (lg1 & E1).
  cbv zeta in E1. fold argv argc in E1.
  destruct (execEntryPoint_run X' lib' args' bundle_path d a env
              (cs ++ [Mono_jit_exec d a argc argv; Mono_jit_cleanup d;
                      Free_argv argv]) lg1)
    as (lg2 & E2).
  cbv zeta in E2. fold argv' argc' in E2.
  do 2 eexists. split; [exact E1|]. split; [exact E2|].
  cbn [calls]. now rewrite <- app_assoc.
Qed.

Lemma execEntryPoint_twice_witness :
  exists w1 w2,
    Java_net_dot_MonoRunner_execEntryPoint
      (sample_host 0 None (fun _ => false) (fun _ => None) 0)
      "App" ["a"] ready_world
      = Returned 0%Z w1
    /\ Java_net_dot_MonoRunner_execEntryPoint
         (sample_host 0 None (fun _ => false) (fun _ => None) 139)
         "App" [] w1
      = Returned 139%Z w2
    /\ calls w2 =
         [Mono_jit_exec sample_domain sample_assembly 2
            [Some "/data/app"; Some "a"];
          Mono_jit_cleanup sample_domain;
          Free_argv [Some "/data/app"; Some "a"];
          Mono_jit_exec sample_domain sample_assembly 1 [Some "/data/app"];
          Mono_jit_cleanup sample_domain;
          Free_argv [Some "/data/app"]].
Proof.
  apply (execEntryPoint_twice
           (sample_host 0 None (fun _ => false) (fun _ => None) 0)
           (sample_host 0 None (fun _ => false) (fun _ => None) 139)
           "App" "App" ["a"] [] ready_world "/data/app" sample_domain
           sample_assembly);
    reflexivity.
Defined.

Lemma initRuntime_allocation_failure_calls
    (X : Externals) (cfg : BuildConfig) (files_dir lib : string) (t : Z)
    (w : World) :
  malloc_ok X (strlen (strncpy_str files_dir 2048) + 1) = false ->
  calls (world_of (Java_net_dot_MonoRunner_initRuntime X cfg files_dir lib t w))
  = calls w.
Proof.
  intros Hmalloc. destruct w as [bp d a env cs lg].
  unfold Java_net_dot_MonoRunner_initRuntime. shim_run. rewrite Hmalloc.
  reflexivity.
Qed.

(** No call of an initialization runs the program or lets go of a
    handle. *)
Lemma init_calls_keep_handles
    (X : Externals) (cfg : BuildConfig) (bundle_path executable : string)
    (offset : Z) :
  Forall (fun c => runs_or_releases c = false)
    (domain_setup_calls X cfg bundle_path offset
     ++ entry_assembly_calls X bundle_path executable).
Proof.
  apply Forall_app. split.
  - unfold domain_setup_calls, aot_mode_calls.
    destruct (DIAGNOSTIC_PORTS cfg),
      (stat_ok X (runtimeconfig_path bundle_path)),
      (FORCE_INTERPRETER cfg), (FORCE_AOT cfg), (STATIC_AOT cfg),
      (FULL_AOT cfg); cbn [app]; repeat constructor.
  - unfold entry_assembly_calls.
    destruct (mono_jit_init_version X "dotnet.android" "mobile");
      [destruct (stat_ok X (fst (assembly_path bundle_path executable None)))|];
      repeat constructor.
Qed.

(** X9: [initRuntime] does not guard against being called again.  Its
    result is the same in every state of the shim; and a second
    initialization overwrites the handles it finds without closing the
    assembly or finalizing or cleaning up the domain they name. *)
Theorem initRuntime_again
    (X : Externals) (cfg : BuildConfig) (files_dir lib : string) (t : Z)
    (w w0 : World) :
  returned (Java_net_dot_MonoRunner_initRuntime X cfg files_dir lib t w)
  = returned (Java_net_dot_MonoRunner_initRuntime X cfg files_dir lib t w0)
  /\ forall c,
       In c (drop (length (calls w))
               (calls (world_of
                  (Java_net_dot_MonoRunner_initRuntime X cfg files_dir lib t w)))) ->
       runs_or_releases c = false.
Proof.
  split.
  - destruct (initRuntime_outcome X cfg files_dir lib t w)
      as (env1 & cs1 & lg1 & ->).
    destruct (initRuntime_outcome X cfg files_dir lib t w0)
      as (env2 & cs2 & lg2 & ->).
    destruct (malloc_ok X _);
      [destruct (mono_jit_init_version X _ _);
       [destruct (stat_ok X _); [destruct (mono_assembly_open X _)|]|]|];
      reflexivity.
  - destruct (malloc_ok X (strlen (strncpy_str files_dir 2048) + 1)) eqn:Hm.
    + destruct (initRuntime_effects X cfg files_dir lib t w Hm)
        as (-> & _ & _).
      rewrite drop_app_length. intros c Hc.
      pose proof (init_calls_keep_handles X cfg (strncpy_str files_dir 2048)
                    (strncpy_str lib 2048) (to_int t)) as Hall.
      rewrite List.Forall_forall in Hall. apply Hall. exact Hc.
    + rewrite (initRuntime_allocation_failure_calls X cfg files_dir lib t w Hm).
      rewrite drop_all. intros c [].
Qed.

(** X10: a whole run.  After an initialization that created the domain
    and opened the entry assembly, [execEntryPoint] and then
    [freeNativeResources] end with these calls, in this order: the
    program is run and the engine cleaned up, the argument vector is
    freed, then the bundle path that this initialization allocated is
    freed, the assembly it opened is closed and the domain it created
    is finalized; the three globals are null again. *)
Theorem whole_run
    (X X' : Externals) (cfg : BuildConfig) (files_dir lib lib' : string)
    (t : Z) (args : list string) (w : World)
    (d : MonoDomain) (a : MonoAssembly) :
  let bundle_path := strncpy_str files_dir 2048 in
  let path := fst (assembly_path bundle_path (strncpy_str lib 2048) None) in
  let argc := Z.of_nat (length args + 1) in
  let argv := Some <$> (bundle_path :: args) in
  malloc_ok X (strlen bundle_path + 1) = true ->
  mono_jit_init_version X "dotnet.android" "mobile" = Some d ->
  stat_ok X path = true ->
  mono_assembly_open X path = Some a ->
  exists rv w1 w2 w3,
    Java_net_dot_MonoRunner_initRuntime X cfg files_dir lib t w
      = Returned rv w1
    /\ Java_net_dot_MonoRunner_execEntryPoint X' lib' args w1
      = Returned (mono_jit_exec X' d a argc argv) w2
    /\ Java_net_dot_MonoRunner_freeNativeResources w2 = Returned tt w3
    /\ calls w3 =
         calls w1
         ++ [Mono_jit_exec d a argc argv; Mono_jit_cleanup d; Free_argv argv;
             Free_string bundle_path; Mono_assembly_close a;
             Mono_domain_set d false; Mono_domain_finalize d 0]
    /\ g_bundle_path w3 = None /\ g_domain w3 = None /\ g_assembly w3 = None.
Proof.
  intros bundle_path path argc argv Hmalloc Hd Hstat Ha.
  destruct (initRuntime_outcome X cfg files_dir lib t w)
    as (env' & cs' & lg' & ->).
  fold bundle_path. fold path. rewrite Hmalloc, Hd, Hstat, Ha.
  destruct (execEntryPoint_run X' lib' args bundle_path d a env' cs' lg')
    as (lg2 & E).
  do 4 eexists. split; [reflexivity|]. split; [exact E|].
  unfold Java_net_dot_MonoRunner_freeNativeResources.
  unfold bind at 1, LOG_INFO at 1, android_log_print at 1.
  rewrite free_resources_run.
  cbn [g_bundle_path g_domain g_assembly calls environ logcat].
  split; [reflexivity|]. cbn [calls g_bundle_path g_domain g_assembly].
  rewrite <- !(@List.app_assoc call). cbn [app].
  repeat split; reflexivity.
Qed.

Lemma whole_run_witness :
  exists rv w1 w2 w3,
    Java_net_dot_MonoRunner_initRuntime
      (sample_host 0 (Some sample_domain) (fun _ => true)
         (fun _ => Some sample_assembly) 0)
      sample_config "/data/app" "App" 0 (initial_world ∅)
      = Returned rv w1
    /\ Java_net_dot_MonoRunner_execEntryPoint
         (sample_host 0 None (fun _ => false) (fun _ => None) 7)
         "App" [] w1
      = Returned 7%Z w2
    /\ Java_net_dot_MonoRunner_freeNativeResources w2 = Returned tt w3
    /\ calls w3 =
         calls w1
         ++ [Mono_jit_exec sample_domain sample_assembly 1 [Some "/data/app"];
             Mono_jit_cleanup sample_domain; Free_argv [Some "/data/app"];
             Free_string "/data/app"; Mono_assembly_close sample_assembly;
             Mono_domain_set sample_domain false;
             Mono_domain_finalize sample_domain 0]
    /\ g_bundle_path w3 = None /\ g_domain w3 = None /\ g_assembly w3 = None.
Proof.
  apply (whole_run
           (sample_host 0 (Some sample_domain) (fun _ => true)
              (fun _ => Some sample_assembly) 0)
           (sample_host 0 None (fun _ => false) (fun _ => None) 7)
           sample_config "/data/app" "App" "App" 0 [] (initial_world ∅)
           sample_domain sample_assembly);
    reflexivity.
Defined.

(** ** The hooks *)

(** X11: [freeNativeResources] takes the bundle path away from the
    hooks it leaves installed: after it, from any state, the assembly
    preload hook and the AOT data hook fail their first assertion and
    abort, whatever they are asked for, before any call or log line. *)
Theorem hooks_abort_after_release
    (X : Externals) (aname : MonoAssemblyName) (assembly : MonoAssembly)
    (size : Z) (w : World) :
  let w1 := world_of (Java_net_dot_MonoRunner_freeNativeResources w) in
  mono_droid_assembly_preload_hook X aname w1 = Aborted w1
  /\ load_aot_data X assembly size w1 = Aborted w1.
Proof.
  cbv zeta. unfold Java_net_dot_MonoRunner_freeNativeResources.
  unfold bind at 1 2 3 4, LOG_INFO, android_log_print.
  rewrite !free_resources_run. cbn [world_of].
  split; reflexivity.
Qed.

(** X12: with the bundle path set, the assembly preload hook answers
    "not found" (null) exactly when [stat] fails on the candidate path,
    and then it has not asked the engine to open anything; it aborts
    exactly when the file is there and the engine does not open it; and
    however it ends it leaves the three globals and the environment as
    they were. *)
Theorem preload_hook_outcome
    (X : Externals) (aname : MonoAssemblyName) (w : World)
    (bundle_path : string) :
  g_bundle_path w = Some bundle_path ->
  let path :=
    fst (assembly_path bundle_path (aname_name aname) (aname_culture aname)) in
  let o := mono_droid_assembly_preload_hook X aname w in
  (returned o = Some None <-> stat_ok X path = false)
  /\ (stat_ok X path = false -> calls (world_of o) = calls w ++ [Stat path])
  /\ (returned o = None <->
      stat_ok X path = true /\ mono_assembly_open X path = None)
  /\ (forall assembly,
        returned o = Some (Some assembly) <->
        stat_ok X path = true /\ mono_assembly_open X path = Some assembly)
  /\ g_bundle_path (world_of o) = g_bundle_path w
  /\ g_domain (world_of o) = g_domain w
  /\ g_assembly (world_of o) = g_assembly w
  /\ environ (world_of o) = environ w.
Proof.
  intros Hbp path o. subst o. unfold mono_droid_assembly_preload_hook.
  rewrite (mono_droid_load_assembly_run X _ _ w bundle_path Hbp).
  cbv zeta. fold path.
  destruct (stat_ok X path); [destruct (mono_assembly_open X path)|];
    cbn [returned world_of calls g_bundle_path g_domain g_assembly environ];
    repeat split; try reflexivity; try congruence;
    try (intros [? ?]; congruence); intros; try congruence.
Qed.

Lemma preload_hook_outcome_witness :
  returned
    (mono_droid_assembly_preload_hook
       (sample_host 0 (Some sample_domain) (fun _ => false) (fun _ => None) 0)
       {| aname_name := "System.Resources"; aname_culture := Some "fr" |}
       ready_world)
  = Some None.
Proof.
  apply (proj1 (preload_hook_outcome
                  (sample_host 0 (Some sample_domain) (fun _ => false)
                     (fun _ => None) 0)
                  {| aname_name := "System.Resources";
                     aname_culture := Some "fr" |}
                  ready_world "/data/app" eq_refl)).
  reflexivity.
Defined.

(** X13: with the bundle path set, whenever [open] hands the AOT data
    loader a descriptor, the loader maps it once with the size it was
    given and closes it once, whether the mapping succeeds or not; what
    it returns and what it stores in the out-handle are both the answer
    of [mmap], so they are equal; and [free_aot_data] on that handle and
    size unmaps what was mapped. *)
Theorem load_aot_data_closes_descriptor
    (X : Externals) (assembly : MonoAssembly) (size : Z) (w : World)
    (bundle_path : string) :
  g_bundle_path w = Some bundle_path ->
  let path :=
    fst (aot_data_path bundle_path (mono_assembly_get_name X assembly)) in
  let fd := open_rdonly X path in
  (0 <= fd)%Z ->
  exists w',
    load_aot_data X assembly size w
      = Returned (mmap_private X size fd, mmap_private X size fd) w'
    /\ calls w' = calls w ++ [Open_rdonly path; Mmap size fd; Close fd]
    /\ (forall handle,
          mmap_private X size fd = Some handle ->
          calls (world_of (free_aot_data size handle w'))
          = calls w ++ [Open_rdonly path; Mmap size fd; Close fd;
                        Munmap handle size])
    /\ g_bundle_path w' = g_bundle_path w
    /\ g_domain w' = g_domain w
    /\ g_assembly w' = g_assembly w
    /\ environ w' = environ w.
Proof.
  intros Hbp path fd Hfd.
  destruct w as [bp d a env cs lg]. cbn [g_bundle_path] in Hbp. subst bp.
  pose proof (aot_data_path_res_pos bundle_path
                (mono_assembly_get_name X assembly)) as Hres.
  unfold load_aot_data. shim_run. subst fd path.
  destruct (aot_data_path bundle_path (mono_assembly_get_name X assembly))
    as [path res].
  cbn [fst snd] in *. rewrite Hres. shim_run.
  destruct (Z.ltb_spec (open_rdonly X path) 0) as [Hneg | _]; [lia|].
  shim_run.
  destruct (mmap_private X size (open_rdonly X path)) as [ptr|]; shim_run;
    eexists; (split; [reflexivity|]);
    cbn [calls g_bundle_path g_domain g_assembly environ];
    rewrite <- !(@List.app_assoc call); cbn [app];
    repeat split; try reflexivity.
  - intros handle [= <-]. unfold free_aot_data. shim_run.
    now rewrite <- !(@List.app_assoc call).
  - intros handle [=].
Qed.

Lemma load_aot_data_closes_descriptor_witness :
  exists w',
    load_aot_data
      {| stat_ok := fun _ => true;
         open_rdonly := fun _ => 5%Z;
         mmap_private := fun _ _ => Some 4096%positive;
         malloc_ok := fun _ => true;
         monovm_initialize := fun _ _ => 0%Z;
         mono_jit_init_version := fun _ _ => Some sample_domain;
         mono_assembly_open := fun _ => Some sample_assembly;
         mono_assembly_get_name := fun _ => "System.Private.CoreLib";
         mono_jit_exec := fun _ _ _ _ => 0%Z |}
      sample_assembly 8192 ready_world
    = Returned (Some 4096%positive, Some 4096%positive) w'
    /\ calls w' =
         [Open_rdonly "/data/app/System.Private.CoreLib.aotdata";
          Mmap 8192 5; Close 5].
Proof.
  destruct (load_aot_data_closes_descriptor
              {| stat_ok := fun _ => true;
                 open_rdonly := fun _ => 5%Z;
                 mmap_private := fun _ _ => Some 4096%positive;
                 malloc_ok := fun _ => true;
                 monovm_initialize := fun _ _ => 0%Z;
                 mono_jit_init_version := fun _ _ => Some sample_domain;
                 mono_assembly_open := fun _ => Some sample_assembly;
                 mono_assembly_get_name := fun _ => "System.Private.CoreLib";
                 mono_jit_exec := fun _ _ _ _ => 0%Z |}
              sample_assembly 8192 ready_world "/data/app" eq_refl)
    as (w' & E & Hcalls & _).
  - cbv zeta. cbn. lia.
  - exists w'. split; [exact E | exact Hcalls].
Defined.

(** X14: the AOT data of an assembly is looked for under the bundle
    path, in the file named by the assembly's name as the engine gives
    it, with ".aotdata" appended and no extension added or removed; this
    is the path the loader opens, as long as it has at most 1022
    characters, and no path it opens is longer. *)
Theorem load_aot_data_path
    (X : Externals) (assembly : MonoAssembly) (size : Z) (w : World)
    (bundle_path : string) :
  g_bundle_path w = Some bundle_path ->
  let aname := mono_assembly_get_name X assembly in
  let wanted := bundle_path +:+ "/" +:+ aname +:+ ".aotdata" in
  exists opened rest,
    calls (world_of (load_aot_data X assembly size w))
      = calls w ++ Open_rdonly opened :: rest
    /\ strlen opened <= 1022
    /\ opened = truncate 1022 wanted
    /\ (strlen wanted <= 1022 -> opened = wanted).
Proof.
  intros Hbp aname wanted.
  destruct w as [bp d a env cs lg]. cbn [g_bundle_path] in Hbp. subst bp.
  pose proof (aot_data_path_res_pos bundle_path aname) as Hres.
  unfold load_aot_data. shim_run. fold aname.
  unfold aot_data_path, snprintf in *. cbn [fst snd] in *. fold wanted in Hres |- *.
  rewrite Hres. shim_run.
  exists (truncate (1023 - 1) wanted).
  assert (Hcut : truncate (1023 - 1) wanted = truncate 1022 wanted)
    by (f_equal; lia).
  destruct (open_rdonly X (truncate (1023 - 1) wanted) <? 0)%Z; shim_run;
    [|destruct (mmap_private X size _); shim_run];
    eexists; (split;
      [cbn [calls]; rewrite <- ?(@List.app_assoc call); cbn [app]; reflexivity|]);
    (split; [rewrite Hcut; unfold strlen; rewrite length_truncate; lia|]);
    (split; [exact Hcut|]);
    intros Hfit; rewrite Hcut; apply truncate_all; exact Hfit.
Qed.

Lemma load_aot_data_path_witness :
  exists opened rest,
    calls (world_of
      (load_aot_data
         (sample_host 0 (Some sample_domain) (fun _ => true)
            (fun _ => Some sample_assembly) 0)
         sample_assembly 4096 ready_world))
      = calls ready_world ++ Open_rdonly opened :: rest
    /\ strlen opened <= 1022
    /\ opened = truncate 1022 "/data/app/App.aotdata"
    /\ (strlen "/data/app/App.aotdata" <= 1022 ->
        opened = "/data/app/App.aotdata").
Proof.
  apply (load_aot_data_path
           (sample_host 0 (Some sample_domain) (fun _ => true)
              (fun _ => Some sample_assembly) 0)
           sample_assembly 4096 ready_world "/data/app" eq_refl).
Defined.

(** ** File names *)

(** X15: for a name of at most 1019 characters the file name that
    resolution builds always carries an extension, ".dll" or ".exe",
    and resolving that file name again gives it back unchanged. *)
Theorem assembly_filename_has_extension (name : string) :
  strlen name <= 1019 ->
  has_extension (assembly_filename name) = true
  /\ assembly_filename (assembly_filename name) = assembly_filename name.
Proof.
  intros Hlen.
  assert (Hfile : assembly_filename name = spec_filename name).
  { apply assembly_filename_fits. unfold spec_filename.
    destruct (ends_withb ".dll" name || ends_withb ".exe" name);
      unfold strlen in *; rewrite ?length_append;
      change (String.length ".dll") with 4; lia. }
  assert (Hext : has_extension (assembly_filename name) = true).
  { rewrite Hfile. unfold spec_filename.
    destruct (ends_withb ".dll" name || ends_withb ".exe" name) eqn:E.
    - now rewrite has_extension_ends_withb.
    - apply has_extension_spec. right. now exists name. }
  split; [exact Hext|].
  unfold assembly_filename at 1. rewrite Hext. unfold strlcpy.
  apply truncate_all. rewrite Hfile. unfold spec_filename.
  destruct (ends_withb ".dll" name || ends_withb ".exe" name);
    unfold strlen in *; rewrite ?length_append;
    change (String.length ".dll") with 4; lia.
Qed.

Lemma assembly_filename_has_extension_witness :
  has_extension (assembly_filename "App.DLL") = true
  /\ assembly_filename (assembly_filename "App.DLL")
     = assembly_filename "App.DLL".
Proof.
  apply (assembly_filename_has_extension "App.DLL"). vm_compute. lia.
Defined.

(** ** Setting the environment, twice *)

(** X16: before initialization [setEnv] can be called any number of
    times.  After two calls under names that [setenv] takes, the second
    key is bound to the second value; the first key keeps the first
    value unless the second call named the same key, in which case the
    later value wins; every other variable is as it was; and the two
    [setenv] are the only calls made. *)
Theorem setEnv_twice
    (key1 value1 key2 value2 : string) (w : World) :
  g_domain w = None ->
  valid_env_name key1 = true ->
  valid_env_name key2 = true ->
  exists w1 w2,
    Java_net_dot_MonoRunner_setEnv key1 value1 w = Returned tt w1
    /\ Java_net_dot_MonoRunner_setEnv key2 value2 w1 = Returned tt w2
    /\ environ w2 !! key2 = Some value2
    /\ (key1 <> key2 -> environ w2 !! key1 = Some value1)
    /\ (forall key, key <> key1 -> key <> key2 ->
          environ w2 !! key = environ w !! key)
    /\ calls w2 =
         calls w ++ [Setenv key1 value1 true; Setenv key2 value2 true].
Proof.
  intros Hd Hv1 Hv2.
  destruct (setEnv_run key1 value1 w Hd) as (lg1 & E1).
  match type of E1 with
  | _ = Returned tt ?w1 =>
      destruct (setEnv_run key2 value2 w1 eq_refl) as (lg2 & E2)
  end.
  rewrite Hv1 in E1, E2. rewrite Hv2 in E2.
  do 2 eexists. split; [exact E1|]. split; [exact E2|].
  cbn [environ calls]. split; [apply lookup_insert_eq|].
  split; [|split; [|now rewrite <- app_assoc]].
  - intros Hne. rewrite lookup_insert_ne by congruence.
    apply lookup_insert_eq.
  - intros key H1 H2. now rewrite !lookup_insert_ne by congruence.
Qed.

Lemma setEnv_twice_witness :
  exists w1 w2,
    Java_net_dot_MonoRunner_setEnv "MONO_LOG_LEVEL" "info" (initial_world ∅)
      = Returned tt w1
    /\ Java_net_dot_MonoRunner_setEnv "MONO_LOG_LEVEL" "debug" w1
      = Returned tt w2
    /\ environ w2 !! "MONO_LOG_LEVEL" = Some "debug"
    /\ ("MONO_LOG_LEVEL" <> "MONO_LOG_LEVEL" ->
        environ w2 !! "MONO_LOG_LEVEL" = Some "info")
    /\ (forall key, key <> "MONO_LOG_LEVEL" -> key <> "MONO_LOG_LEVEL" ->
          environ w2 !! key = (∅ : gmap string string) !! key)
    /\ calls w2 =
         [Setenv "MONO_LOG_LEVEL" "info" true;
          Setenv "MONO_LOG_LEVEL" "debug" true].
Proof.
  apply (setEnv_twice "MONO_LOG_LEVEL" "info" "MONO_LOG_LEVEL" "debug"
           (initial_world ∅) eq_refl eq_refl eq_refl).
Defined.

(** After a release there is no domain. *)
Lemma release_clears_domain (w : World) :
  g_domain (world_of (Java_net_dot_MonoRunner_freeNativeResources w)) = None.
Proof.
  unfold Java_net_dot_MonoRunner_freeNativeResources.
  unfold bind, LOG_INFO, android_log_print. rewrite free_resources_run.
  reflexivity.
Qed.

(** X17: the time for [setEnv] ends when an initialization gets its
    domain, whether or not it goes on to load the entry assembly, and
    comes back with [freeNativeResources]: after the former [setEnv]
    aborts on its assertion, after the latter it returns and, under a
    name that [setenv] takes, sets the variable. *)
Theorem setEnv_window
    (X : Externals) (cfg : BuildConfig) (files_dir lib key value : string)
    (t : Z) (w : World) (d : MonoDomain) :
  malloc_ok X (strlen (strncpy_str files_dir 2048) + 1) = true ->
  mono_jit_init_version X "dotnet.android" "mobile" = Some d ->
  valid_env_name key = true ->
  let w1 :=
    world_of (Java_net_dot_MonoRunner_initRuntime X cfg files_dir lib t w) in
  let w2 := world_of (Java_net_dot_MonoRunner_freeNativeResources w1) in
  (exists w', Java_net_dot_MonoRunner_setEnv key value w1 = Aborted w')
  /\ (exists w',
        Java_net_dot_MonoRunner_setEnv key value w2 = Returned tt w'
        /\ environ w' !! key = Some value).
Proof.
  intros Hmalloc Hd Hvalid w1 w2. subst w2 w1.
  destruct (initRuntime_outcome X cfg files_dir lib t w)
    as (env' & cs' & lg' & ->).
  rewrite Hmalloc, Hd. split.
  - destruct (stat_ok X _); [destruct (mono_assembly_open X _)|];
      cbn [world_of]; unfold Java_net_dot_MonoRunner_setEnv; shim_run;
      rewrite bool_decide_eq_false_2 by discriminate;
      eexists; reflexivity.
  - match goal with
    | |- exists w', Java_net_dot_MonoRunner_setEnv _ _ ?w0 = _ /\ _ =>
        destruct (setEnv_run key value w0 (release_clears_domain _))
          as (lg2 & ->)
    end.
    eexists. split; [reflexivity|]. cbn [environ]. rewrite Hvalid.
    apply lookup_insert_eq.
Qed.

Lemma setEnv_window_witness :
  (exists w',
     Java_net_dot_MonoRunner_setEnv "MONO_LOG_LEVEL" "debug"
       (world_of
          (Java_net_dot_MonoRunner_initRuntime
             (sample_host 0 (Some sample_domain) (fun _ => false)
                (fun _ => None) 0)
             sample_config "/data/app" "App" 0 (initial_world ∅)))
     = Aborted w')
  /\ (exists w',
     Java_net_dot_MonoRunner_setEnv "MONO_LOG_LEVEL" "debug"
       (world_of
          (Java_net_dot_MonoRunner_freeNativeResources
             (world_of
                (Java_net_dot_MonoRunner_initRuntime
                   (sample_host 0 (Some sample_domain) (fun _ => false)
                      (fun _ => None) 0)
                   sample_config "/data/app" "App" 0 (initial_world ∅)))))
     = Returned tt w'
     /\ environ w' !! "MONO_LOG_LEVEL" = Some "debug").
Proof.
  apply (setEnv_window
           (sample_host 0 (Some sample_domain) (fun _ => false)
              (fun _ => None) 0)
           sample_config "/data/app" "App" "MONO_LOG_LEVEL" "debug" 0
           (initial_world ∅) sample_domain);
    reflexivity.
Defined.

(** ** The unhandled-exception sink *)

(** The text of a property, by the engine's answers. *)
Lemma fetch_exception_property_string_virtual
    (R : Reflection) (obj : MonoObject) (name : string) :
  mono_droid_fetch_exception_property_string R obj name true =
    match mono_class_get_method_from_name R name with
    | None =>
        (None,
         [("Could not find the property System.Exception.%s",
           [Str (Some name)])])
    | Some get =>
        (match mono_runtime_invoke R
                 (match mono_object_get_virtual_method R obj get with
                  | Some get_virt => get_virt
                  | None => get
                  end) obj with
         | Some str => Some (mono_string_to_utf8 R str)
         | None => None
         end, [])
    end.
Proof.
  unfold mono_droid_fetch_exception_property_string,
    mono_droid_fetch_exception_property.
  destruct (mono_class_get_method_from_name R name); reflexivity.
Qed.

(** X18: the unhandled-exception sink always ends the process with
    status 1, and before that writes exactly one line to the log, at
    error priority, with the exception's type as "namespace.name", its
    message and its stack trace.  A property whose getter
    [System.Exception] does not have is logged as null; a property whose
    getter is there is read through the object's own override of the
    getter when it has one.  What the sink prints on the standard
    output is one line for each absent getter and nothing else, the one
    for [get_StackTrace] before the one for [get_Message].  The calls
    of the sink after the reads are the [free] of the strings it
    obtained, trace, message, type name in this order, and the three
    globals and the environment are not touched. *)
Theorem unhandled_exception_is_logged
    (R : Reflection) (exc : MonoObject) (w : World) :
  let e := unhandled_exception_handler R exc w in
  let type := mono_object_get_class R exc in
  let type_name :=
    mono_class_get_namespace R type +:+ "." +:+ mono_class_get_name R type in
  let read name :=
    fst (mono_droid_fetch_exception_property_string R exc name true) in
  let absent name :=
    match mono_class_get_method_from_name R name with
    | Some _ => []
    | None =>
        [("Could not find the property System.Exception.%s",
          [Str (Some name)])]
    end in
  let freed (p : option string) :=
    match p with
    | Some s => [Free_string s]
    | None => []
    end in
  exit_status e = 1%Z
  /\ logcat (exit_world e) =
       logcat w
       ++ [Build_log_record ANDROID_LOG_ERROR "UnhandledException: %s %s %s"
             [Str (Some type_name);
              Str (read "get_Message"); Str (read "get_StackTrace")]]
  /\ (forall name,
        mono_class_get_method_from_name R name = None ->
        read name = None)
  /\ (forall name get get_virt str,
        mono_class_get_method_from_name R name = Some get ->
        mono_object_get_virtual_method R exc get = Some get_virt ->
        mono_runtime_invoke R get_virt exc = Some str ->
        read name = Some (mono_string_to_utf8 R str))
  /\ (forall name get str,
        mono_class_get_method_from_name R name = Some get ->
        mono_object_get_virtual_method R exc get = None ->
        mono_runtime_invoke R get exc = Some str ->
        read name = Some (mono_string_to_utf8 R str))
  /\ exit_stdout e = absent "get_StackTrace" ++ absent "get_Message"
  /\ calls (exit_world e) =
       calls w ++ freed (read "get_StackTrace") ++ freed (read "get_Message")
       ++ [Free_string type_name]
  /\ g_bundle_path (exit_world e) = g_bundle_path w
  /\ g_domain (exit_world e) = g_domain w
  /\ g_assembly (exit_world e) = g_assembly w
  /\ environ (exit_world e) = environ w.
Proof.
  cbv zeta. destruct w as [bp d a env cs lg].
  unfold unhandled_exception_handler.
  rewrite !fetch_exception_property_string_virtual.
  split; [|split; [|split; [|split; [|split; [|split; [|split]]]]]].
  - destruct (mono_class_get_method_from_name R "get_StackTrace"),
      (mono_class_get_method_from_name R "get_Message"); reflexivity.
  - destruct (mono_class_get_method_from_name R "get_StackTrace") as [gt|],
      (mono_class_get_method_from_name R "get_Message") as [gm|];
      cbn [fst exit_world];
      repeat match goal with
             | |- context [match mono_runtime_invoke R ?m ?o with _ => _ end] =>
                 destruct (mono_runtime_invoke R m o)
             end;
      unfold free, strdup_printf; shim_run; reflexivity.
  - intros name Hnone. rewrite fetch_exception_property_string_virtual, Hnone.
    reflexivity.
  - intros name get get_virt str Hget Hvirt Hinvoke.
    rewrite fetch_exception_property_string_virtual, Hget, Hvirt, Hinvoke.
    reflexivity.
  - intros name get str Hget Hvirt Hinvoke.
    rewrite fetch_exception_property_string_virtual, Hget, Hvirt, Hinvoke.
    reflexivity.
  - destruct (mono_class_get_method_from_name R "get_StackTrace"),
      (mono_class_get_method_from_name R "get_Message"); reflexivity.
  - destruct (mono_class_get_method_from_name R "get_StackTrace") as [gt|],
      (mono_class_get_method_from_name R "get_Message") as [gm|];
      cbn [fst exit_world];
      repeat match goal with
             | |- context [match mono_runtime_invoke R ?m ?o with _ => _ end] =>
                 destruct (mono_runtime_invoke R m o)
             end;
      unfold free, strdup_printf; shim_run; cbn [calls];
      rewrite <- ?(@List.app_assoc call); reflexivity.
  - destruct (mono_class_get_method_from_name R "get_StackTrace") as [gt|],
      (mono_class_get_method_from_name R "get_Message") as [gm|];
      cbn [fst exit_world];
      repeat match goal with
             | |- context [match mono_runtime_invoke R ?m ?o with _ => _ end] =>
                 destruct (mono_runtime_invoke R m o)
             end;
      unfold free, strdup_printf; shim_run; repeat split; reflexivity.
Qed.

(** An exception whose class has [get_Message] and no [get_StackTrace]:
    the message is logged, the trace is logged as null and its absence
    is printed. *)
Lemma unhandled_exception_is_logged_witness :
  logcat
    (exit_world
       (unhandled_exception_handler (sample_reflection ["get_Message"])
          sample_exception ready_world))
  = [Build_log_record ANDROID_LOG_ERROR "UnhandledException: %s %s %s"
       [Str (Some "System.InvalidOperationException");
        Str (Some "text"); Str None]]
  /\ exit_stdout
       (unhandled_exception_handler (sample_reflection ["get_Message"])
          sample_exception ready_world)
     = [("Could not find the property System.Exception.%s",
         [Str (Some "get_StackTrace")])].
Proof.
  pose proof (unhandled_exception_is_logged
                (sample_reflection ["get_Message"])
                sample_exception ready_world) as H.
  split; [exact (proj1 (proj2 H))|].
  exact (proj1 (proj2 (proj2 (proj2 (proj2 (proj2 H)))))).
Defined.

(** ** The buffers *)

(** X19: whatever the inputs, the contents of the fixed buffers fit
    them with room for the terminator: at most 1023 characters in
    [filename[1024]], also after ".dll" is appended, at most 1022 in
    the two [path[1024]] (which are filled through [sizeof (path) - 1]),
    and at most 2047 in the two 2048-byte copies of [initRuntime]. *)
Theorem buffers_hold_their_contents
    (bundle_path name aname j_string : string) (culture : option string) :
  strlen (assembly_filename name) <= 1023
  /\ strlen (fst (assembly_path bundle_path name culture)) <= 1022
  /\ strlen (fst (aot_data_path bundle_path aname)) <= 1022
  /\ strlen (strncpy_str j_string 2048) <= 2047.
Proof.
  split; [|split; [|split]].
  - unfold assembly_filename, strlcpy, strlcat, strlen.
    destruct (has_extension name).
    + rewrite length_truncate. lia.
    + destruct (Nat.leb_spec 1024 (String.length (truncate (1024 - 1) name)))
        as [Hge | Hlt].
      * rewrite length_truncate in Hge. lia.
      * rewrite length_append, !length_truncate in *. lia.
  - apply assembly_path_bounded.
  - unfold aot_data_path, snprintf, strlen. cbn [fst].
    rewrite length_truncate. lia.
  - rewrite strncpy_str_2048. unfold strlen. rewrite length_truncate. lia.
Qed.
